(** * Progress tracker backend: shallow embedding and verified properties

    The development follows the Python sources under [backend/app]:
    - [models/progress.py]   the pydantic records,
    - [models/database.py]   the [DatabaseManager] (PostgreSQL pool or files),
    - [api/progress.py]      the HTTP handlers [get_progress], [save_progress]
                             and [complete_task],
    - [models/analytics.py]  the three methods of [ProgressAnalytics],
    - [api/analytics.py]     the HTTP handlers [get_analytics] and
                             [create_backup],
    - [utils/tasks.py]       the background task [cleanup_old_data].

    Python [int] is [Z]; Python [float] is IEEE binary64, taken from the
    Standard Library's executable specification [SpecFloat]; [dict] is a
    [gmap]; exceptions are an explicit [result] type. *)

From Stdlib Require Import ZArith QArith Qabs Qround Floats.SpecFloat.
From stdpp Require Import gmap strings list fin_maps.

Local Open Scope string_scope.
Local Open Scope Z_scope.

(** ** Exceptions and results *)

(** The exceptions the modelled code can raise. [HTTPError] is FastAPI's
    [HTTPException]; it derives from [Exception], so an [except Exception]
    clause catches it like any other. *)
Inductive exn : Type :=
  | OverflowError
  | ValueError
  | KeyError (key : string)
  | UnboundLocalError (name : string)
  | HTTPError (status_code : Z) (detail : string).

Inductive result (A : Type) : Type :=
  | Ok (a : A)
  | Raise (e : exn).
Arguments Ok {A} a.
Arguments Raise {A} e.

#[global] Instance result_ret : MRet result := @Ok.
#[global] Instance result_bind : MBind result := fun A B f r =>
  match r with
  | Ok a => f a
  | Raise e => Raise e
  end.

Definition is_ok {A} (r : result A) : bool :=
  match r with Ok _ => true | Raise _ => false end.

(** ** Python numbers *)

Module Py.

(** binary64: 53 bits of precision, infinities at exponent 1024. *)
Definition prec : Z := 53.
Definition emax : Z := 1024.

Abbreviation float := spec_float.

(** The literals of the sources, as the nearest binary64 values. *)
Definition f1_0 : float := S754_finite false 4503599627370496 (-52).
Definition f1_2 : float := S754_finite false 5404319552844595 (-52).
Definition f1_5 : float := S754_finite false 6755399441055744 (-52).

(** [float(z)] for a Python int: round to nearest, ties to even;
    [OverflowError] when the int is too large for a float. *)
Definition float_of_int (z : Z) : result float :=
  match binary_normalize prec emax z 0 false with
  | S754_infinity _ => Raise OverflowError
  | f => Ok f
  end.

Definition float_mul (x y : float) : float := SFmul prec emax x y.

(** [z * f] with [z] an int and [f] a float: the int is converted first. *)
Definition int_mul_float (z : Z) (f : float) : result float :=
  x ← float_of_int z; Ok (float_mul x f).

(** [int(f)]: truncation toward zero; infinities and NaN raise. *)
Definition int_of_float (f : float) : result Z :=
  match f with
  | S754_zero _ => Ok 0
  | S754_finite s m e =>
      Ok (cond_Zopp s (if 0 <=? e then Z.pos m * 2 ^ e
                       else Z.pos m / 2 ^ (- e)))
  | S754_infinity _ => Raise OverflowError
  | S754_nan => Raise ValueError
  end.

(** [a / 2] for a Python int [a]: true division, correctly rounded
    ([a * 2^-1] rounded to nearest even), [OverflowError] when too large. *)
Definition int_truediv_2 (a : Z) : result float :=
  match binary_normalize prec emax a (-1) false with
  | S754_infinity _ => Raise OverflowError
  | f => Ok f
  end.

(** A value that is an int or a float, as [max(1, x / 2)] returns. *)
Inductive num : Type :=
  | Int (z : Z)
  | Float (f : float).

(** [max(1, f)]: the first argument is kept unless the second is
    strictly greater. *)
Definition max_1 (f : float) : num :=
  if SFltb f1_0 f then Float f else Int 1.

(** The exact rational value of a finite float (0 for the others). *)
Definition Q_of_float (f : float) : Q :=
  match f with
  | S754_finite s m e =>
      let q := if 0 <=? e then inject_Z (Z.pos m * 2 ^ e)
               else Qmake (Z.pos m) (Z.to_pos (2 ^ (- e))) in
      if s then Qopp q else q
  | _ => 0%Q
  end.

Definition Q_of_num (n : num) : Q :=
  match n with
  | Int z => inject_Z z
  | Float f => Q_of_float f
  end.

End Py.

(** ** Records of [models/progress.py] *)

(** A JSON value of a portfolio item ([Dict[str, Any]]). *)
Inductive pyval : Type :=
  | VStr (s : string)
  | VInt (z : Z)
  | VBool (b : bool).

(** A dict literal with its keys in insertion order. *)
Definition pydict : Type := list (string * pyval).

(** An element of [portfolioItems]. *)
Definition PortfolioItem : Type := pydict.

Module ProgressData.
Record t : Type := mk {
  currentWeek : Z;
  currentDay : Z;
  totalXP : Z;
  dailyXP : Z;
  streak : Z;
  completedTasks : list string;
  struggledTasks : list string;
  notes : gmap string string;
  portfolioItems : list PortfolioItem;
  certificationProgress : gmap string Z;
  difficultyLevel : string;
  lastUpdated : option string;
}.

(** [ProgressData()]: every field at its default. *)
Definition new : t := {|
  currentWeek := 1;
  currentDay := 1;
  totalXP := 0;
  dailyXP := 0;
  streak := 0;
  completedTasks := [];
  struggledTasks := [];
  notes := ∅;
  portfolioItems := [];
  certificationProgress :=
    <["Google Cloud AI" := 0]>
      (<["AWS ML Specialty" := 0]> (<["Azure AI Engineer" := 0]> ∅));
  difficultyLevel := "medium";
  lastUpdated := None;
|}.
End ProgressData.

Module TaskCompletion.
Record t : Type := mk {
  taskId : string;
  points : Z;
  time : Py.float;
  category : string;
  notes : option string;
  difficulty : string;
}.
End TaskCompletion.

(** ** The update of [complete_task] (api/progress.py, lines 52-85) *)

(** Lines 56-60. *)
Definition multiplier (category : string) : Py.float :=
  if bool_decide (category = "capstone") then Py.f1_5
  else if bool_decide (category = "project") then Py.f1_2
  else Py.f1_0.

(** Line 61: [int(completion.points * multiplier)]. *)
Definition earned_xp (completion : TaskCompletion.t) : result Z :=
  f ← Py.int_mul_float (TaskCompletion.points completion)
        (multiplier (TaskCompletion.category completion));
  Py.int_of_float f.

(** Line 66. *)
Definition cert_progress_map : gmap string Z :=
  <["ai" := 5]> (<["production" := 3]> (<["project" := 2]>
    (<["capstone" := 10]> ∅))).

(** Line 67: [cert_progress_map.get(completion.category, 1)]. *)
Definition cert_increase (category : string) : Z :=
  default 1 (cert_progress_map !! category).

(** [d[key]] on a dict: [KeyError] when the key is absent. *)
Definition getitem {V} (d : gmap string V) (key : string) : result V :=
  match d !! key with
  | Some v => Ok v
  | None => Raise (KeyError key)
  end.

(** Lines 74-80. *)
Definition portfolio_item (completion : TaskCompletion.t) (now_iso : string)
    (xp : Z) : PortfolioItem :=
  [ ("id", VStr (TaskCompletion.taskId completion));
    ("name", VStr ("Task: " +:+ TaskCompletion.taskId completion));
    ("completedDate", VStr now_iso);
    ("type", VStr (TaskCompletion.category completion));
    ("xp", VInt xp) ].

(** Truth value of [completion.notes] (an [Optional[str]]). *)
Definition truthy_notes (n : option string) : option string :=
  match n with
  | Some s => if bool_decide (s = "") then None else Some s
  | None => None
  end.

(** The body of the [if] at line 52 and the [if] itself. [now_iso] is the value
    of [datetime.now().isoformat()] read at line 77. The second component is
    the local variable [earned_xp]: it is bound only inside the branch. *)
Definition apply_completion (progress : ProgressData.t)
    (completion : TaskCompletion.t) (now_iso : string)
    : result (ProgressData.t * option Z) :=
  let task := TaskCompletion.taskId completion in
  let cat := TaskCompletion.category completion in
  if bool_decide (task ∈ ProgressData.completedTasks progress) then
    Ok (progress, None)
  else
    let completed := (ProgressData.completedTasks progress ++ [task])%list in
    xp ← earned_xp completion;
    current ← getitem (ProgressData.certificationProgress progress)
                 "Google Cloud AI";
    let cert := <["Google Cloud AI" := Z.min 100 (current + cert_increase cat)]>
                  (ProgressData.certificationProgress progress) in
    let portfolio :=
      if bool_decide (cat ∈ ["project"; "capstone"]) then
        (ProgressData.portfolioItems progress
           ++ [portfolio_item completion now_iso xp])%list
      else ProgressData.portfolioItems progress in
    let notes :=
      match truthy_notes (TaskCompletion.notes completion) with
      | Some n => <[task := n]> (ProgressData.notes progress)
      | None => ProgressData.notes progress
      end in
    Ok ({| ProgressData.currentWeek := ProgressData.currentWeek progress;
           ProgressData.currentDay := ProgressData.currentDay progress;
           ProgressData.totalXP := ProgressData.totalXP progress + xp;
           ProgressData.dailyXP := ProgressData.dailyXP progress + xp;
           ProgressData.streak := ProgressData.streak progress;
           ProgressData.completedTasks := completed;
           ProgressData.struggledTasks := ProgressData.struggledTasks progress;
           ProgressData.notes := notes;
           ProgressData.portfolioItems := portfolio;
           ProgressData.certificationProgress := cert;
           ProgressData.difficultyLevel := ProgressData.difficultyLevel progress;
           ProgressData.lastUpdated := ProgressData.lastUpdated progress |},
        Some xp).

(** ** [DatabaseManager] (models/database.py) *)

(** A [datetime], in microseconds. *)
Definition datetime : Type := Z.

(** [timedelta(days=days)]. *)
Definition timedelta_days (days : Z) : Z := days * 86400 * 1000000.

Module SpacedRepetitionRow.
Record t : Type := mk {
  id : Z;
  user_id : string;
  task_id : string;
  next_review : datetime;
}.
End SpacedRepetitionRow.

(** The tables behind the connection pool that the modelled code reads and
    writes; [user_progress] holds the row a query by [user_id] returns. *)
Record PgTables : Type := {
  user_progress : gmap string ProgressData.t;
  spaced_repetition : list SpacedRepetitionRow.t;
}.

(** [pool] is [None] in file mode; [data_dir] holds the parsed contents of
    [data/progress_<user_id>.json]. *)
Record DatabaseManager : Type := {
  pool : option PgTables;
  data_dir : gmap string ProgressData.t;
}.

(** The methods take a flag [fault]: whether an exception (I/O, connection,
    SQL error, validation of the stored data) is raised inside their [try]
    block. Whether a call faults is an input of the model, which does not
    decide it from the SQL text or the file system. A faulting call is taken
    to leave the store as it was. *)
Module db_manager.

(** [save_progress], lines 95-120. *)
Definition save_progress (fault : bool) (self : DatabaseManager)
    (user_id : string) (progress_data : ProgressData.t)
    : DatabaseManager * bool :=
  if fault then (self, false)
  else
    match pool self with
    | Some pg =>
        ({| pool := Some {| user_progress :=
                              <[user_id := progress_data]> (user_progress pg);
                            spaced_repetition := spaced_repetition pg |};
            data_dir := data_dir self |}, true)
    | None =>
        ({| pool := None;
            data_dir := <[user_id := progress_data]> (data_dir self) |}, true)
    end.

(** [load_progress], lines 122-148. *)
Definition load_progress (fault : bool) (self : DatabaseManager)
    (user_id : string) : option ProgressData.t :=
  if fault then None
  else
    match pool self with
    | Some pg => user_progress pg !! user_id
    | None => data_dir self !! user_id
    end.

End db_manager.

(** The snapshot stored under an identifier: what a load without fault reads. *)
Definition stored (db : DatabaseManager) (user_id : string)
    : option ProgressData.t :=
  db_manager.load_progress false db user_id.

(** ** The handlers of api/progress.py *)

(** What a handler answers: a 200 with its body, or an [HTTPException]. *)
Inductive Response (A : Type) : Type :=
  | HTTP200 (body : A)
  | HTTPException (status_code : Z) (detail : string).
Arguments HTTP200 {A} body.
Arguments HTTPException {A} status_code detail.

(** [try: ... except Exception: raise HTTPException(500, detail)]. *)
Definition try_except {A} (body : result A) (detail : string) : Response A :=
  match body with
  | Ok a => HTTP200 a
  | Raise _ => HTTPException 500 detail
  end.

Definition set_lastUpdated (progress : ProgressData.t) (v : option string)
    : ProgressData.t :=
  {| ProgressData.currentWeek := ProgressData.currentWeek progress;
     ProgressData.currentDay := ProgressData.currentDay progress;
     ProgressData.totalXP := ProgressData.totalXP progress;
     ProgressData.dailyXP := ProgressData.dailyXP progress;
     ProgressData.streak := ProgressData.streak progress;
     ProgressData.completedTasks := ProgressData.completedTasks progress;
     ProgressData.struggledTasks := ProgressData.struggledTasks progress;
     ProgressData.notes := ProgressData.notes progress;
     ProgressData.portfolioItems := ProgressData.portfolioItems progress;
     ProgressData.certificationProgress :=
       ProgressData.certificationProgress progress;
     ProgressData.difficultyLevel := ProgressData.difficultyLevel progress;
     ProgressData.lastUpdated := v |}.

Module api.

(** [GET /progress], lines 12-24. A [ProgressData] instance is truthy, so
    [not progress] holds only for [None]. *)
Definition get_progress (load_fault : bool) (db : DatabaseManager)
    (user_id : string) : Response ProgressData.t :=
  try_except
    (let progress := db_manager.load_progress load_fault db user_id in
     let progress :=
       match progress with
       | Some p => p
       | None => ProgressData.new
       end in
     Ok progress)
    "Failed to retrieve progress".

(** [POST /progress], lines 27-41. *)
Definition save_progress (save_fault : bool) (db : DatabaseManager)
    (progress : ProgressData.t) (user_id : string) (now_iso : string)
    : DatabaseManager * Response pydict :=
  let progress := set_lastUpdated progress (Some now_iso) in
  let '(db, success) :=
    db_manager.save_progress save_fault db user_id progress in
  (db,
   try_except
     (if success then
        Ok [("success", VBool true);
            ("message", VStr "Progress saved successfully")]
      else Raise (HTTPError 500 "Failed to save progress"))
     "Failed to save progress").

(** [POST /task/complete], lines 44-101. The value of
    [db_manager.save_progress] at line 88 is dropped. At lines 93-95 the
    condition is evaluated first, and [earned_xp] only when it holds. *)
Definition complete_task (load_fault save_fault : bool)
    (db : DatabaseManager) (completion : TaskCompletion.t)
    (user_id : string) (now_iso : string)
    : DatabaseManager * Response pydict :=
  let progress :=
    default ProgressData.new
      (db_manager.load_progress load_fault db user_id) in
  match apply_completion progress completion now_iso with
  | Raise _ => (db, HTTPException 500 "Failed to complete task")
  | Ok (progress, earned_xp) =>
      let '(db, _) :=
        db_manager.save_progress save_fault db user_id progress in
      (db,
       try_except
         (xp_earned ←
            (if bool_decide (TaskCompletion.taskId completion
                               ∉ ProgressData.completedTasks progress)
             then match earned_xp with
                  | Some xp => Ok xp
                  | None => Raise (UnboundLocalError "earned_xp")
                  end
             else Ok 0);
          Ok [("success", VBool true);
              ("message", VStr "Task completed successfully");
              ("xp_earned", VInt xp_earned);
              ("total_xp", VInt (ProgressData.totalXP progress))])
         "Failed to complete task")
  end.

End api.

(** ** [predict_certification_readiness] (models/analytics.py, lines 22-45) *)

Module Readiness.
Record t : Type := mk {
  current_progress : Z;
  estimated_days_to_ready : Py.num;
  confidence_level : string;
  recommended_focus : string;
}.
End Readiness.

(** The body of the loop for one certification (lines 30-43). *)
Definition readiness_entry (progress_pct : Z) : result Readiness.t :=
  half ← Py.int_truediv_2 (100 - progress_pct);
  let estimated_days := Py.max_1 half in
  Ok {| Readiness.current_progress := progress_pct;
        Readiness.estimated_days_to_ready := estimated_days;
        Readiness.confidence_level :=
          if bool_decide (progress_pct > 70) then "high"
          else if bool_decide (progress_pct > 40) then "medium" else "low";
        Readiness.recommended_focus :=
          if bool_decide (progress_pct > 60) then "practice_exams"
          else "foundation_building" |}.

Definition predict_certification_readiness (progress : ProgressData.t)
    : result (gmap string Readiness.t) :=
  map_fold
    (fun cert progress_pct acc =>
       readiness ← acc;
       entry ← readiness_entry progress_pct;
       Ok (<[cert := entry]> readiness))
    (Ok ∅)
    (ProgressData.certificationProgress progress).

(** ** [cleanup_old_data] (utils/tasks.py) *)

(** [fault]: whether acquiring the connection or the [DELETE] raises; the
    exception is logged and swallowed. *)
Definition cleanup_old_data (fault : bool) (db : DatabaseManager)
    (now : datetime) : DatabaseManager :=
  let cutoff_date := now - timedelta_days 30 in
  match pool db with
  | Some pg =>
      if fault then db
      else
        {| pool := Some {| user_progress := user_progress pg;
                           spaced_repetition :=
                             filter (fun row =>
                                       ¬ (SpacedRepetitionRow.next_review row
                                            < cutoff_date))
                                    (spaced_repetition pg) |};
           data_dir := data_dir db |}
  | None => db
  end.

(** The review rows a sweep can see: none in file mode. *)
Definition review_rows (db : DatabaseManager) : list SpacedRepetitionRow.t :=
  match pool db with
  | Some pg => spaced_repetition pg
  | None => []
  end.

(** ** The specification's reading of the earned XP *)

(** The multiplier as the exact rational the specification names. *)
Definition spec_multiplier (category : string) : Q :=
  if bool_decide (category = "capstone") then 3 # 2
  else if bool_decide (category = "project") then 6 # 5
  else 1.

(** [floor(points * multiplier)] over the rationals. *)
Definition spec_xp (points : Z) (category : string) : Z :=
  Qfloor (inject_Z points * spec_multiplier category).

(** [points * multiplier] truncated toward zero, over the rationals. *)
Definition trunc_xp (points : Z) (category : string) : Z :=
  let q := (inject_Z points * spec_multiplier category)%Q in
  Z.quot (Qnum q) (Z.pos (Qden q)).

(** ** Definitions used by the statements *)

Abbreviation GCA := "Google Cloud AI" (only parsing).

(** Line 61 as a function of the two fields it reads. *)
Definition xp_of (points : Z) (category : string) : result Z :=
  earned_xp (TaskCompletion.mk "" points Py.f1_0 category None "medium").

(** The float computation of line 61 against the exact product truncated
    toward zero. *)
Definition xp_agrees_on (category : string) (points : Z) : bool :=
  match xp_of points category with
  | Ok xp => xp =? trunc_xp points category
  | Raise _ => false
  end.

(** [count] consecutive ints from [start]. *)
Fixpoint ints_from (start : Z) (count : nat) : list Z :=
  match count with
  | O => []
  | S count => start :: ints_from (start + 1) count
  end.

(** The ints from -5000 to 5000. *)
Definition checked_points : list Z := ints_from (-5000) (Z.to_nat 10001).

(** A completion event without notes. *)
Definition example_completion (task : string) (points : Z) (category : string)
    : TaskCompletion.t :=
  {| TaskCompletion.taskId := task;
     TaskCompletion.points := points;
     TaskCompletion.time := Py.f1_0;
     TaskCompletion.category := category;
     TaskCompletion.notes := None;
     TaskCompletion.difficulty := "medium" |}.

(** The earned XP the specification lists for [points = 100]. *)
Definition xp_for_100_points (category : string) : Z :=
  if bool_decide (category = "capstone") then 150
  else if bool_decide (category = "project") then 120
  else 100.

(** The body [POST /task/complete] returns on success. *)
Definition complete_task_body (xp_earned total_xp : Z) : pydict :=
  [("success", VBool true);
   ("message", VStr "Task completed successfully");
   ("xp_earned", VInt xp_earned);
   ("total_xp", VInt total_xp)].

(** A request to [POST /task/complete]: whether the save faults, the event
    and the clock reading. Loads are taken not to fault. *)
Definition completion_request : Type := bool * TaskCompletion.t * string.

(** One request: the database it leaves. *)
Definition post_completion (user_id : string) (db : DatabaseManager)
    (request : completion_request) : DatabaseManager :=
  let '(save_fault, completion, now_iso) := request in
  fst (api.complete_task false save_fault db completion user_id now_iso).

(** The requests are handled one after the other. *)
Definition post_completions (user_id : string) (db : DatabaseManager)
    (requests : list completion_request) : DatabaseManager :=
  foldl (post_completion user_id) db requests.

(** The snapshot a handler works on: the stored one or the default. *)
Definition current_progress (db : DatabaseManager) (user_id : string)
    : ProgressData.t :=
  default ProgressData.new (stored db user_id).

(** The "Google Cloud AI" entry of that snapshot, if it has one. *)
Definition google_cloud_ai (db : DatabaseManager) (user_id : string)
    : option Z :=
  ProgressData.certificationProgress (current_progress db user_id) !! GCA.

(** A snapshot with its [certificationProgress] replaced. *)
Definition with_certificationProgress (progress : ProgressData.t)
    (cert : gmap string Z) : ProgressData.t :=
  {| ProgressData.currentWeek := ProgressData.currentWeek progress;
     ProgressData.currentDay := ProgressData.currentDay progress;
     ProgressData.totalXP := ProgressData.totalXP progress;
     ProgressData.dailyXP := ProgressData.dailyXP progress;
     ProgressData.streak := ProgressData.streak progress;
     ProgressData.completedTasks := ProgressData.completedTasks progress;
     ProgressData.struggledTasks := ProgressData.struggledTasks progress;
     ProgressData.notes := ProgressData.notes progress;
     ProgressData.portfolioItems := ProgressData.portfolioItems progress;
     ProgressData.certificationProgress := cert;
     ProgressData.difficultyLevel := ProgressData.difficultyLevel progress;
     ProgressData.lastUpdated := ProgressData.lastUpdated progress |}.

(** Twelve first-time capstone completions whose saves succeed. *)
Definition twelve_capstone_requests : list completion_request :=
  (fun task =>
     (false, example_completion task 100 "capstone", "2024-01-01T10:00:00"))
  <$> ["c1"; "c2"; "c3"; "c4"; "c5"; "c6"; "c7"; "c8"; "c9"; "c10"; "c11";
       "c12"].

(** The float 12.5. *)
Definition f12_5 : Py.float := S754_finite false 7036874417766400 (-49).

(** The readiness entry of a certification at 75 percent. *)
Definition readiness_75 : Readiness.t :=
  {| Readiness.current_progress := 75;
     Readiness.estimated_days_to_ready := Py.Float f12_5;
     Readiness.confidence_level := "high";
     Readiness.recommended_focus := "practice_exams" |}.

(** A snapshot at 75 percent of "Google Cloud AI". *)
Definition progress_at_75 : ProgressData.t :=
  with_certificationProgress ProgressData.new
    (<[GCA := 75]> (ProgressData.certificationProgress ProgressData.new)).

(** ** Arithmetic of the analytics (models/analytics.py, api/analytics.py) *)

(** What the analytics code can do: return, raise one of the exceptions
    above, or raise [ZeroDivisionError]. *)
Inductive outcome (A : Type) : Type :=
  | Returns (a : A)
  | Raises (e : exn)
  | RaisesZeroDivisionError.
Arguments Returns {A} a.
Arguments Raises {A} e.
Arguments RaisesZeroDivisionError {A}.

#[global] Instance outcome_ret : MRet outcome := @Returns.
#[global] Instance outcome_bind : MBind outcome := fun A B f r =>
  match r with
  | Returns a => f a
  | Raises e => Raises e
  | RaisesZeroDivisionError => RaisesZeroDivisionError
  end.

Definition of_result {A} (r : result A) : outcome A :=
  match r with
  | Ok a => Returns a
  | Raise e => Raises e
  end.

Module PyArith.

(** The literals [0.3] and [0.1]. *)
Definition f0_3 : Py.float := S754_finite false 5404319552844595 (-54).
Definition f0_1 : Py.float := S754_finite false 7205759403792794 (-56).

(** An int as an unrounded float with exponent 0. *)
Definition exact (z : Z) : Py.float :=
  match z with
  | Z0 => S754_zero false
  | Zpos p => S754_finite false p 0
  | Zneg p => S754_finite true p 0
  end.

(** [a / b] for two ints: the correctly rounded quotient (the division core
    of [SpecFloat] on the integers themselves, rounded once);
    [ZeroDivisionError] for [b = 0], [OverflowError] when the quotient is too
    large for a float. A zero numerator takes the sign of the divisor. *)
Definition int_truediv (a b : Z) : outcome Py.float :=
  match b with
  | Z0 => RaisesZeroDivisionError
  | _ =>
      match a with
      | Z0 => Returns (S754_zero (b <? 0))
      | _ =>
          match SFdiv Py.prec Py.emax (exact a) (exact b) with
          | S754_infinity _ => Raises OverflowError
          | f => Returns f
          end
      end
  end.

(** [x / y] for two floats: [ZeroDivisionError] for a zero divisor, IEEE
    division otherwise. *)
Definition float_truediv (x y : Py.float) : outcome Py.float :=
  match y with
  | S754_zero _ => RaisesZeroDivisionError
  | _ => Returns (SFdiv Py.prec Py.emax x y)
  end.

(** [a / d] for an int [a] and [d] an int or a float. *)
Definition int_truediv_num (a : Z) (d : Py.num) : outcome Py.float :=
  match d with
  | Py.Int b => int_truediv a b
  | Py.Float f => x ← of_result (Py.float_of_int a); float_truediv x f
  end.

(** [d > 0] for [d] an int or a float. *)
Definition num_gt_0 (d : Py.num) : bool :=
  match d with
  | Py.Int z => 0 <? z
  | Py.Float f => SFltb (S754_zero false) f
  end.

(** [len(l)]. *)
Definition len {A} (l : list A) : Z := Z.of_nat (length l).

(** [max(d.values())] for a dict of ints: [ValueError] on an empty dict. *)
Definition max_values (d : gmap string Z) : outcome Z :=
  match map_fold (fun _ v acc =>
                    Some (match acc with
                          | Some m => Z.max m v
                          | None => v
                          end)) None d with
  | Some m => Returns m
  | None => Raises ValueError
  end.

End PyArith.

(** ** [ProgressAnalytics] (models/analytics.py) *)

Module Velocity.
Record t : Type := mk {
  xp_per_day : Py.float;
  tasks_per_day : Py.float;
  efficiency_score : Py.float;
  consistency_score : Py.num;
}.
End Velocity.

(** [calculate_learning_velocity], lines 8-20. The values of the dict literal
    are evaluated in the order they are written. *)
Definition calculate_learning_velocity (progress : ProgressData.t)
    : outcome Velocity.t :=
  let completed := PyArith.len (ProgressData.completedTasks progress) in
  third ← PyArith.int_truediv completed 3;
  let days_active := Py.max_1 third in
  xp_per_day ←
    PyArith.int_truediv_num (ProgressData.totalXP progress) days_active;
  tasks_per_day ← PyArith.int_truediv_num completed days_active;
  efficiency_score ←
    PyArith.int_truediv (ProgressData.totalXP progress)
      (Z.max 1 (PyArith.len (ProgressData.struggledTasks progress) + 1));
  consistency_score ←
    (if PyArith.num_gt_0 days_active then
       f ← PyArith.int_truediv_num (ProgressData.streak progress) days_active;
       Returns (Py.Float f)
     else Returns (Py.Int 0));
  Returns {| Velocity.xp_per_day := xp_per_day;
             Velocity.tasks_per_day := tasks_per_day;
             Velocity.efficiency_score := efficiency_score;
             Velocity.consistency_score := consistency_score |}.

(** The five messages of [generate_personalized_recommendations]. *)
Definition review_fundamentals : string :=
  "Consider reviewing fundamentals - high struggle rate detected".
Definition more_challenging : string :=
  "You're doing great! Consider taking on more challenging projects".
Definition increase_study_time : string :=
  "Increase daily study time to meet weekly XP targets".
Definition schedule_exam : string :=
  "You're close to certification! Schedule your exam soon".
Definition more_portfolio : string :=
  "Focus on completing more portfolio projects".

(** [l.append(x)] when [b] holds. *)
Definition append_if {A} (b : bool) (l : list A) (x : A) : list A :=
  if b then (l ++ [x])%list else l.

(** [generate_personalized_recommendations], lines 48-82. *)
Definition generate_personalized_recommendations (progress : ProgressData.t)
    : outcome (list string) :=
  let recommendations : list string := [] in
  struggle_rate ←
    PyArith.int_truediv (PyArith.len (ProgressData.struggledTasks progress))
      (Z.max 1 (PyArith.len (ProgressData.completedTasks progress)));
  let recommendations :=
    if SFltb PyArith.f0_3 struggle_rate then
      (recommendations ++ [review_fundamentals])%list
    else if SFltb struggle_rate PyArith.f0_1 then
      (recommendations ++ [more_challenging])%list
    else recommendations in
  let recommendations :=
    append_if (bool_decide (ProgressData.totalXP progress
                              < ProgressData.currentWeek progress * 1000))
      recommendations increase_study_time in
  max_cert_progress ←
    PyArith.max_values (ProgressData.certificationProgress progress);
  let recommendations :=
    append_if (bool_decide (max_cert_progress > 80))
      recommendations schedule_exam in
  let recommendations :=
    append_if (bool_decide (PyArith.len (ProgressData.portfolioItems progress)
                              < ProgressData.currentWeek progress))
      recommendations more_portfolio in
  Returns (take 3 recommendations).

(** ** The handlers of api/analytics.py *)

Module Summary.
Record t : Type := mk {
  total_xp : Z;
  completion_rate : Py.float;
  struggle_rate : Py.float;
  portfolio_count : Z;
}.
End Summary.

Module Analytics.
Record t : Type := mk {
  learning_velocity : Velocity.t;
  certification_readiness : gmap string Readiness.t;
  recommendations : list string;
  summary : Summary.t;
}.
End Analytics.

Module Backup.
Record t : Type := mk {
  backup_date : string;
  user_id : string;
  progress : ProgressData.t;
  version : string;
}.
End Backup.

(** [try: ... except Exception: raise HTTPException(500, detail)] around a
    body that can also raise [ZeroDivisionError]. *)
Definition try_except_outcome {A} (body : outcome A) (detail : string)
    : Response A :=
  match body with
  | Returns a => HTTP200 a
  | Raises _ | RaisesZeroDivisionError => HTTPException 500 detail
  end.

Module analytics_api.

(** [GET /analytics], lines 11-39. The [HTTPException] of line 17 is raised
    inside the [try]. *)
Definition get_analytics (load_fault : bool) (db : DatabaseManager)
    (user_id : string) : Response Analytics.t :=
  try_except_outcome
    (match db_manager.load_progress load_fault db user_id with
     | None => Raises (HTTPError 404 "No progress data found")
     | Some progress =>
         learning_velocity ← calculate_learning_velocity progress;
         certification_readiness ←
           of_result (predict_certification_readiness progress);
         recommendations ← generate_personalized_recommendations progress;
         completion_rate ←
           PyArith.int_truediv
             (PyArith.len (ProgressData.completedTasks progress))
             (Z.max 1 (ProgressData.currentWeek progress * 5));
         struggle_rate ←
           PyArith.int_truediv
             (PyArith.len (ProgressData.struggledTasks progress))
             (Z.max 1 (PyArith.len (ProgressData.completedTasks progress)));
         Returns
           {| Analytics.learning_velocity := learning_velocity;
              Analytics.certification_readiness := certification_readiness;
              Analytics.recommendations := recommendations;
              Analytics.summary :=
                {| Summary.total_xp := ProgressData.totalXP progress;
                   Summary.completion_rate := completion_rate;
                   Summary.struggle_rate := struggle_rate;
                   Summary.portfolio_count :=
                     PyArith.len (ProgressData.portfolioItems progress) |} |}
     end)
    "Failed to retrieve analytics".

(** [GET /backup], lines 55-73; [now_iso] is [datetime.now().isoformat()].
    The [HTTPException] of line 61 is raised inside the [try]. *)
Definition create_backup (load_fault : bool) (db : DatabaseManager)
    (user_id : string) (now_iso : string) : Response Backup.t :=
  try_except_outcome
    (match db_manager.load_progress load_fault db user_id with
     | None => Raises (HTTPError 404 "No progress data found")
     | Some progress =>
         Returns {| Backup.backup_date := now_iso;
                    Backup.user_id := user_id;
                    Backup.progress := progress;
                    Backup.version := "1.0.0" |}
     end)
    "Failed to create backup".

End analytics_api.

(** ** Further definitions used by the statements *)

(** The sum of a list of XP amounts. *)
Definition sum_xp (xps : list Z) : Z := foldr Z.add 0 xps.

(** The task a request completes. *)
Definition request_task (request : completion_request) : string :=
  TaskCompletion.taskId request.1.2.

(** A completion event with a note. *)
Definition noted_completion (task : string) (points : Z) (category : string)
    (note : string) : TaskCompletion.t :=
  {| TaskCompletion.taskId := task;
     TaskCompletion.points := points;
     TaskCompletion.time := Py.f1_0;
     TaskCompletion.category := category;
     TaskCompletion.notes := Some note;
     TaskCompletion.difficulty := "medium" |}.

(** A snapshot in its third week: one task done, one note, stamped. *)
Definition progress_in_week_3 : ProgressData.t :=
  {| ProgressData.currentWeek := 3;
     ProgressData.currentDay := 4;
     ProgressData.totalXP := 5000;
     ProgressData.dailyXP := 40;
     ProgressData.streak := 7;
     ProgressData.completedTasks := ["t0"];
     ProgressData.struggledTasks := ["t0"];
     ProgressData.notes := {["t0" := "first note"]};
     ProgressData.portfolioItems := [];
     ProgressData.certificationProgress :=
       ProgressData.certificationProgress ProgressData.new;
     ProgressData.difficultyLevel := "hard";
     ProgressData.lastUpdated := Some "2023-12-31T09:00:00" |}.

(** A snapshot whose [certificationProgress] is the empty dict. *)
Definition progress_without_certifications : ProgressData.t :=
  with_certificationProgress ProgressData.new ∅.

(** A file-mode database holding one snapshot. *)
Definition db_with (user_id : string) (progress : ProgressData.t)
    : DatabaseManager :=
  {| pool := None; data_dir := {[user_id := progress]} |}.

(** The estimate of line 30 against the exact half: the int 1 from 98
    percent on, below that a float whose value is [(100 - pct) / 2]. *)
Definition days_agree (pct : Z) : bool :=
  match readiness_entry pct with
  | Ok entry =>
      match Readiness.estimated_days_to_ready entry with
      | Py.Int z => (z =? 1) && (98 <=? pct)
      | Py.Float f =>
          (pct <? 98) && Qeq_bool (Py.Q_of_float f) ((100 - pct) # 2)
      end
  | Raise _ => false
  end.

(** The ints from -1000 to 1000. *)
Definition checked_percentages : list Z := ints_from (-1000) (Z.to_nat 2001).

(** The five messages in the order of their rules. *)
Definition all_recommendations : list string :=
  [review_fundamentals; more_challenging; increase_study_time; schedule_exam;
   more_portfolio].

(** A snapshot for which four rules fire: one of two tasks struggled, 10 XP
    in week 1, a certification at 90 percent, no portfolio item. *)
Definition progress_with_four_reasons : ProgressData.t :=
  {| ProgressData.currentWeek := 1;
     ProgressData.currentDay := 1;
     ProgressData.totalXP := 10;
     ProgressData.dailyXP := 10;
     ProgressData.streak := 1;
     ProgressData.completedTasks := ["t1"; "t2"];
     ProgressData.struggledTasks := ["t1"];
     ProgressData.notes := ∅;
     ProgressData.portfolioItems := [];
     ProgressData.certificationProgress := {[GCA := 90]};
     ProgressData.difficultyLevel := "medium";
     ProgressData.lastUpdated := None |}.

(** * Properties *)

(** ** The float model *)

(** The literals are the correctly rounded quotients 6/5 and 3/2, and 1. *)
Lemma float_literals :
  SFdiv Py.prec Py.emax (binary_normalize Py.prec Py.emax 6 0 false)
        (binary_normalize Py.prec Py.emax 5 0 false) = Py.f1_2
  ∧ SFdiv Py.prec Py.emax (binary_normalize Py.prec Py.emax 3 0 false)
          (binary_normalize Py.prec Py.emax 2 0 false) = Py.f1_5
  ∧ binary_normalize Py.prec Py.emax 1 0 false = Py.f1_0
  ∧ valid_binary Py.prec Py.emax Py.f1_2 = true
  ∧ valid_binary Py.prec Py.emax Py.f1_5 = true
  ∧ valid_binary Py.prec Py.emax Py.f1_0 = true.
Proof. vm_compute. repeat split. Qed.

(** [1.2] lies within half a unit in the last place of 6/5. *)
Lemma f1_2_nearest :
  (Qabs (Py.Q_of_float Py.f1_2 - (6 # 5)) <= 1 # (2 ^ 53))%Q.
Proof. vm_compute. discriminate. Qed.

Lemma earned_xp_xp_of completion :
  earned_xp completion
  = xp_of (TaskCompletion.points completion)
          (TaskCompletion.category completion).
Proof. reflexivity. Qed.

Lemma elem_of_ints_from z start count :
  start ≤ z < start + Z.of_nat count → z ∈ ints_from start count.
Proof.
  revert start. induction count as [|count IH]; intros start Hz; simpl.
  - lia.
  - destruct (decide (z = start)) as [->|Hne].
    + apply list_elem_of_here.
    + apply list_elem_of_further, IH. lia.
Qed.

Lemma elem_of_checked_points z : -5000 ≤ z ≤ 5000 → In z checked_points.
Proof.
  intros Hz. apply list_elem_of_In. unfold checked_points.
  apply elem_of_ints_from. rewrite Z2Nat.id; lia.
Qed.

Lemma xp_agrees_checked :
  forallb (xp_agrees_on "capstone") checked_points = true
  ∧ forallb (xp_agrees_on "project") checked_points = true
  ∧ forallb (xp_agrees_on "ai") checked_points = true.
Proof. vm_compute. auto. Qed.

(** Only the two named categories change the multiplier. *)
Lemma xp_agrees_on_other category points :
  category ≠ "capstone" → category ≠ "project" →
  xp_agrees_on category points = xp_agrees_on "ai" points.
Proof.
  intros Hc Hp.
  unfold xp_agrees_on, xp_of, earned_xp, trunc_xp, multiplier, spec_multiplier.
  simpl. rewrite !(bool_decide_eq_false_2 _ Hc), !(bool_decide_eq_false_2 _ Hp).
  reflexivity.
Qed.

(** On every int from -5000 to 5000 and every category, line 61 computes the
    exact product [points * multiplier] truncated toward zero. *)
Lemma earned_xp_truncates_small completion :
  -5000 ≤ TaskCompletion.points completion ≤ 5000 →
  earned_xp completion
  = Ok (trunc_xp (TaskCompletion.points completion)
                 (TaskCompletion.category completion)).
Proof.
  intros Hin%elem_of_checked_points. rewrite earned_xp_xp_of.
  set (points := TaskCompletion.points completion) in *.
  set (category := TaskCompletion.category completion).
  destruct xp_agrees_checked as (Hcap & Hproj & Hai).
  assert (Hagree : xp_agrees_on category points = true).
  { destruct (decide (category = "capstone")) as [->|Hc];
      [exact (proj1 (forallb_forall _ _) Hcap _ Hin)|].
    destruct (decide (category = "project")) as [->|Hp];
      [exact (proj1 (forallb_forall _ _) Hproj _ Hin)|].
    rewrite xp_agrees_on_other by assumption.
    exact (proj1 (forallb_forall _ _) Hai _ Hin). }
  unfold xp_agrees_on in Hagree.
  destruct (xp_of points category) as [xp|]; [|discriminate].
  apply Z.eqb_eq in Hagree. subst xp. reflexivity.
Qed.

(** ** The update of [complete_task] *)

Section Mutator.

Implicit Types (progress : ProgressData.t) (completion : TaskCompletion.t).
Implicit Types (now_iso : string).

Lemma cert_increase_bounds category : 1 ≤ cert_increase category ≤ 10.
Proof.
  unfold cert_increase, cert_progress_map.
  repeat (rewrite lookup_insert; case_decide; [simpl; lia|]).
  rewrite lookup_empty. simpl. lia.
Qed.

(** A task already completed: the guard at line 52 skips the whole update. *)
Lemma apply_completion_done progress completion now_iso :
  TaskCompletion.taskId completion ∈ ProgressData.completedTasks progress →
  apply_completion progress completion now_iso = Ok (progress, None).
Proof.
  intros Hin. unfold apply_completion.
  by rewrite bool_decide_eq_true_2.
Qed.

(** What a successful update returns, field by field. *)
Lemma apply_completion_fresh progress completion now_iso progress' earned :
  TaskCompletion.taskId completion ∉ ProgressData.completedTasks progress →
  apply_completion progress completion now_iso = Ok (progress', earned) →
  ∃ xp current,
    earned = Some xp
    ∧ earned_xp completion = Ok xp
    ∧ ProgressData.certificationProgress progress !! GCA = Some current
    ∧ ProgressData.totalXP progress' = ProgressData.totalXP progress + xp
    ∧ ProgressData.dailyXP progress' = ProgressData.dailyXP progress + xp
    ∧ ProgressData.completedTasks progress'
      = (ProgressData.completedTasks progress
           ++ [TaskCompletion.taskId completion])%list
    ∧ ProgressData.certificationProgress progress'
      = <[GCA := Z.min 100
                   (current
                    + cert_increase (TaskCompletion.category completion))]>
          (ProgressData.certificationProgress progress).
Proof.
  intros Hnotin. unfold apply_completion.
  rewrite bool_decide_eq_false_2 by done.
  destruct (earned_xp completion) as [xp|]; [|discriminate]. simpl.
  unfold getitem.
  destruct (ProgressData.certificationProgress progress !! GCA)
    as [current|]; [|discriminate]. simpl.
  intros [= <- <-]. exists xp, current. simpl. done.
Qed.

(** The update succeeds whenever line 61 yields an int and the key read at
    line 69 is present. *)
Lemma apply_completion_returns progress completion now_iso xp current :
  TaskCompletion.taskId completion ∉ ProgressData.completedTasks progress →
  earned_xp completion = Ok xp →
  ProgressData.certificationProgress progress !! GCA = Some current →
  ∃ progress',
    apply_completion progress completion now_iso = Ok (progress', Some xp).
Proof.
  intros Hnotin Hxp Hcur. unfold apply_completion.
  rewrite bool_decide_eq_false_2 by done.
  rewrite Hxp. simpl. unfold getitem. rewrite Hcur. simpl. eauto.
Qed.

(** After any successful update the task is in [completedTasks]. *)
Lemma apply_completion_completed progress completion now_iso progress' earned :
  apply_completion progress completion now_iso = Ok (progress', earned) →
  TaskCompletion.taskId completion ∈ ProgressData.completedTasks progress'.
Proof.
  intros Happ.
  destruct (decide (TaskCompletion.taskId completion
                      ∈ ProgressData.completedTasks progress)) as [Hin|Hnotin].
  - rewrite apply_completion_done in Happ by done. by injection Happ as <- _.
  - destruct (apply_completion_fresh _ _ _ _ _ Hnotin Happ)
      as (xp & current & _ & _ & _ & _ & _ & -> & _).
    set_solver.
Qed.

End Mutator.

(** ** Claims about the update *)

(** C2. Applying the same completion event a second time changes nothing:
    once an application has succeeded, the task is in [completedTasks], so the
    guard at line 52 skips the update; [completedTasks], [totalXP],
    [certificationProgress] and [portfolioItems] (indeed the whole snapshot)
    after two applications are those after one. The two applications may read
    different clocks. *)
Theorem apply_completion_idempotent
    (progress progress1 : ProgressData.t) (completion : TaskCompletion.t)
    (now_iso now_iso' : string) (earned : option Z) :
  apply_completion progress completion now_iso = Ok (progress1, earned) →
  ∃ progress2,
    apply_completion progress1 completion now_iso' = Ok (progress2, None)
    ∧ progress2 = progress1
    ∧ ProgressData.completedTasks progress2
      = ProgressData.completedTasks progress1
    ∧ ProgressData.totalXP progress2 = ProgressData.totalXP progress1
    ∧ ProgressData.certificationProgress progress2
      = ProgressData.certificationProgress progress1
    ∧ ProgressData.portfolioItems progress2
      = ProgressData.portfolioItems progress1.
Proof.
  intros Hfirst. exists progress1.
  pose proof (apply_completion_completed _ _ _ _ _ Hfirst) as Hin.
  rewrite (apply_completion_done _ _ now_iso' Hin). done.
Qed.

Lemma apply_completion_idempotent_witness :
  ∃ progress1 earned,
    apply_completion ProgressData.new
      (example_completion "t1" 100 "capstone") "2024-01-01T10:00:00"
    = Ok (progress1, earned)
    ∧ ProgressData.totalXP progress1 = 150
    ∧ apply_completion progress1
        (example_completion "t1" 100 "capstone") "2024-01-02T10:00:00"
      = Ok (progress1, None).
Proof.
  eexists _, _. split; [vm_compute; reflexivity|]. split; [reflexivity|].
  destruct (apply_completion_idempotent ProgressData.new _
              (example_completion "t1" 100 "capstone")
              "2024-01-01T10:00:00" "2024-01-02T10:00:00" _ eq_refl)
    as (progress2 & Happ & -> & _).
  exact Happ.
Defined.

(** C5. A completion writes only the "Google Cloud AI" entry of
    [certificationProgress]: every other entry (in particular
    "AWS ML Specialty" and "Azure AI Engineer") keeps its value, and the
    mapping has the same keys before and after. *)
Theorem apply_completion_cert_frame
    (progress progress' : ProgressData.t) (completion : TaskCompletion.t)
    (now_iso : string) (earned : option Z) :
  apply_completion progress completion now_iso = Ok (progress', earned) →
  ProgressData.certificationProgress progress' !! "AWS ML Specialty"
  = ProgressData.certificationProgress progress !! "AWS ML Specialty"
  ∧ ProgressData.certificationProgress progress' !! "Azure AI Engineer"
    = ProgressData.certificationProgress progress !! "Azure AI Engineer"
  ∧ (∀ cert, cert ≠ GCA →
       ProgressData.certificationProgress progress' !! cert
       = ProgressData.certificationProgress progress !! cert)
  ∧ dom (ProgressData.certificationProgress progress')
    = dom (ProgressData.certificationProgress progress).
Proof.
  intros Happ.
  assert (Hframe : (∀ cert, cert ≠ GCA →
            ProgressData.certificationProgress progress' !! cert
            = ProgressData.certificationProgress progress !! cert)
          ∧ dom (ProgressData.certificationProgress progress')
            = dom (ProgressData.certificationProgress progress)).
  { destruct (decide (TaskCompletion.taskId completion
                        ∈ ProgressData.completedTasks progress)) as [Hin|Hnotin].
    - rewrite apply_completion_done in Happ by done.
      by injection Happ as <- _.
    - destruct (apply_completion_fresh _ _ _ _ _ Hnotin Happ)
        as (xp & current & _ & _ & Hcur & _ & _ & _ & ->).
      split.
      + intros cert Hne. by rewrite lookup_insert_ne.
      + rewrite dom_insert_L.
        assert (Hgca : GCA ∈ dom (ProgressData.certificationProgress progress))
          by (apply elem_of_dom; eauto).
        apply set_eq. intros cert. rewrite elem_of_union, elem_of_singleton.
        split; [intros [->|Hin]; assumption | intros Hin; by right]. }
  destruct Hframe as [Hother Hdom].
  repeat split; [apply Hother; done | apply Hother; done | exact Hother
                | exact Hdom].
Qed.

Lemma apply_completion_cert_frame_witness :
  ∃ progress' earned,
    apply_completion ProgressData.new
      (example_completion "t1" 100 "capstone") "2024-01-01T10:00:00"
    = Ok (progress', earned)
    ∧ ProgressData.certificationProgress progress' !! "AWS ML Specialty"
      = Some 0
    ∧ ProgressData.certificationProgress progress' !! "Azure AI Engineer"
      = Some 0
    ∧ dom (ProgressData.certificationProgress progress')
      = dom (ProgressData.certificationProgress ProgressData.new).
Proof.
  assert (Hrun : ∃ progress' earned,
             apply_completion ProgressData.new
               (example_completion "t1" 100 "capstone") "2024-01-01T10:00:00"
             = Ok (progress', earned))
    by (eexists _, _; vm_compute; reflexivity).
  destruct Hrun as (progress' & earned & Happ).
  exists progress', earned. split; [exact Happ|].
  destruct (apply_completion_cert_frame _ _ _ _ _ Happ)
    as (Haws & Hazure & _ & Hdom).
  rewrite Haws, Hazure. split; [reflexivity|]. split; [reflexivity|].
  exact Hdom.
Defined.

Lemma earned_xp_100 completion :
  TaskCompletion.points completion = 100 →
  earned_xp completion
  = Ok (xp_for_100_points (TaskCompletion.category completion)).
Proof.
  intros Hpoints. unfold earned_xp, multiplier, xp_for_100_points.
  rewrite Hpoints. repeat case_bool_decide; vm_compute; reflexivity.
Qed.

Lemma spec_xp_100 category :
  spec_xp 100 category = xp_for_100_points category.
Proof.
  unfold spec_xp, spec_multiplier, xp_for_100_points.
  repeat case_bool_decide; vm_compute; reflexivity.
Qed.

(** C6. A first-time completion with [points = 100] adds exactly 150 XP to
    [totalXP] for category "capstone", 120 for "project" and 100 for "ai" and
    for every other category; this is [floor(points * multiplier)] with the
    multipliers 3/2, 6/5 and 1. *)
Theorem first_completion_xp_100
    (progress : ProgressData.t) (completion : TaskCompletion.t)
    (now_iso : string) (current : Z) :
  TaskCompletion.points completion = 100 →
  TaskCompletion.taskId completion ∉ ProgressData.completedTasks progress →
  ProgressData.certificationProgress progress !! GCA = Some current →
  ∃ progress' xp,
    apply_completion progress completion now_iso = Ok (progress', Some xp)
    ∧ ProgressData.totalXP progress' = ProgressData.totalXP progress + xp
    ∧ xp = spec_xp 100 (TaskCompletion.category completion)
    ∧ (TaskCompletion.category completion = "capstone" → xp = 150)
    ∧ (TaskCompletion.category completion = "project" → xp = 120)
    ∧ (TaskCompletion.category completion = "ai" → xp = 100)
    ∧ (TaskCompletion.category completion ≠ "capstone" →
       TaskCompletion.category completion ≠ "project" → xp = 100).
Proof.
  intros Hpoints Hnotin Hcur.
  pose proof (earned_xp_100 _ Hpoints) as Hxp.
  destruct (apply_completion_returns _ _ now_iso _ _ Hnotin Hxp Hcur)
    as [progress' Happ].
  exists progress', (xp_for_100_points (TaskCompletion.category completion)).
  split; [exact Happ|].
  destruct (apply_completion_fresh _ _ _ _ _ Hnotin Happ)
    as (xp & cur & [= <-] & _ & _ & Htotal & _).
  split; [exact Htotal|]. split; [by rewrite spec_xp_100|].
  unfold xp_for_100_points.
  repeat split; intros; repeat case_bool_decide; congruence.
Qed.

Lemma first_completion_xp_100_witness :
  ∃ progress',
    apply_completion ProgressData.new
      (example_completion "capstone-1" 100 "capstone") "2024-01-01T10:00:00"
    = Ok (progress', Some 150)
    ∧ ProgressData.totalXP progress' = 150.
Proof.
  destruct (first_completion_xp_100 ProgressData.new
              (example_completion "capstone-1" 100 "capstone")
              "2024-01-01T10:00:00" 0 eq_refl)
    as (progress' & xp & Happ & Htotal & _ & Hcap & _);
    [ by apply not_elem_of_nil | reflexivity | ].
  rewrite (Hcap eq_refl) in Happ, Htotal.
  exists progress'. split; [exact Happ | exact Htotal].
Defined.

(** ** The Persistence Gateway *)

Section Gateway.

Implicit Types (db : DatabaseManager) (progress : ProgressData.t).
Implicit Types (user_id : string).

Lemma save_progress_fault db user_id progress :
  db_manager.save_progress true db user_id progress = (db, false).
Proof. reflexivity. Qed.

Lemma save_progress_success db user_id progress :
  snd (db_manager.save_progress false db user_id progress) = true.
Proof. unfold db_manager.save_progress. by destruct (pool db). Qed.

(** Round trip: what was saved is what a later load reads. *)
Lemma stored_save_progress db user_id progress :
  stored (fst (db_manager.save_progress false db user_id progress)) user_id
  = Some progress.
Proof.
  unfold stored, db_manager.load_progress, db_manager.save_progress.
  destruct (pool db); simpl; apply lookup_insert_eq.
Qed.

Lemma stored_save_progress_ne db user_id other progress :
  user_id ≠ other →
  stored (fst (db_manager.save_progress false db user_id progress)) other
  = stored db other.
Proof.
  intros Hne.
  unfold stored, db_manager.load_progress, db_manager.save_progress.
  destruct (pool db) eqn:Hpool; simpl; rewrite ?Hpool;
    by apply lookup_insert_ne.
Qed.

Lemma load_progress_fault db user_id :
  db_manager.load_progress true db user_id = None.
Proof. reflexivity. Qed.

End Gateway.

(** ** The handlers *)

(** What [complete_task] does once the update has succeeded: the snapshot is
    handed to the Gateway and the response reports [xp_earned = 0]. *)
Lemma complete_task_after_update load_fault save_fault db completion user_id
    now_iso progress' earned :
  apply_completion
    (default ProgressData.new (db_manager.load_progress load_fault db user_id))
    completion now_iso = Ok (progress', earned) →
  api.complete_task load_fault save_fault db completion user_id now_iso
  = (fst (db_manager.save_progress save_fault db user_id progress'),
     HTTP200 (complete_task_body 0 (ProgressData.totalXP progress'))).
Proof.
  intros Happ. unfold api.complete_task. rewrite Happ.
  pose proof (apply_completion_completed _ _ _ _ _ Happ) as Hin.
  destruct (db_manager.save_progress save_fault db user_id progress')
    as [db' success].
  rewrite bool_decide_eq_false_2 by (intros Hnotin; by apply Hnotin).
  reflexivity.
Qed.

(** When the update raises, nothing is saved and the response is a 500. *)
Lemma complete_task_update_raises load_fault save_fault db completion user_id
    now_iso e :
  apply_completion
    (default ProgressData.new (db_manager.load_progress load_fault db user_id))
    completion now_iso = Raise e →
  api.complete_task load_fault save_fault db completion user_id now_iso
  = (db, HTTPException 500 "Failed to complete task").
Proof. intros Happ. unfold api.complete_task. by rewrite Happ. Qed.

(** C1. [POST /task/complete] reports [xp_earned = 0] in every successful
    response. For a task not yet in [completedTasks] the membership test of
    lines 93-95 runs after the append of line 53, so the response carries 0
    although [total_xp] in the same response is the previous total plus the
    newly earned XP; for a task already completed, [xp_earned] is 0 as well
    and [total_xp] is the unchanged total. *)
Theorem complete_task_reports_zero_xp
    (load_fault save_fault : bool) (db : DatabaseManager)
    (completion : TaskCompletion.t) (user_id now_iso : string) :
  let progress :=
    default ProgressData.new
      (db_manager.load_progress load_fault db user_id) in
  let response :=
    snd (api.complete_task load_fault save_fault db completion user_id
           now_iso) in
  (∀ xp current,
     TaskCompletion.taskId completion
       ∉ ProgressData.completedTasks progress →
     earned_xp completion = Ok xp →
     ProgressData.certificationProgress progress !! GCA = Some current →
     response
     = HTTP200 (complete_task_body 0 (ProgressData.totalXP progress + xp)))
  ∧ (TaskCompletion.taskId completion ∈ ProgressData.completedTasks progress →
     response = HTTP200 (complete_task_body 0 (ProgressData.totalXP progress)))
  ∧ (∀ body, response = HTTP200 body →
     ∃ total_xp, body = complete_task_body 0 total_xp).
Proof.
  intros progress response. subst response. repeat split.
  - intros xp current Hnotin Hxp Hcur.
    destruct (apply_completion_returns _ _ now_iso _ _ Hnotin Hxp Hcur)
      as [progress' Happ].
    rewrite (complete_task_after_update _ _ _ _ _ _ _ _ Happ). simpl.
    destruct (apply_completion_fresh _ _ _ _ _ Hnotin Happ)
      as (xp' & cur & [= <-] & _ & _ & -> & _).
    reflexivity.
  - intros Hin.
    pose proof (apply_completion_done progress completion now_iso Hin) as Happ.
    by rewrite (complete_task_after_update _ _ _ _ _ _ _ _ Happ).
  - intros body Hresp.
    destruct (apply_completion progress completion now_iso)
      as [[progress' earned]|e] eqn:Happ.
    + rewrite (complete_task_after_update _ _ _ _ _ _ _ _ Happ) in Hresp.
      simpl in Hresp. injection Hresp as <-. eauto.
    + rewrite (complete_task_update_raises _ _ _ _ _ _ _ Happ) in Hresp.
      discriminate.
Qed.

(** The first completion of a 100-point capstone task by a new user:
    [xp_earned] is 0 while [total_xp] is 150. *)
Example complete_task_first_capstone :
  snd (api.complete_task false false
         {| pool := None; data_dir := ∅ |}
         (example_completion "capstone-1" 100 "capstone")
         "default_user" "2024-01-01T10:00:00")
  = HTTP200 (complete_task_body 0 150).
Proof. vm_compute. reflexivity. Qed.

(** C3. A save that reports failure is terminal in [POST /progress], which
    tests the returned flag and answers 500; [POST /task/complete] drops the
    flag at line 88 and answers 200 with ["success": True] although nothing
    was stored. *)
Theorem complete_task_ignores_save_failure :
  let db := {| pool := None; data_dir := ∅ |} in
  let completion := example_completion "t1" 100 "ai" in
  (∃ progress',
     apply_completion ProgressData.new completion "2024-01-01T10:00:00"
     = Ok (progress', Some 100)
     ∧ db_manager.save_progress true db "default_user" progress'
       = (db, false))
  ∧ api.complete_task false true db completion "default_user"
      "2024-01-01T10:00:00"
    = (db, HTTP200 (complete_task_body 0 100))
  ∧ stored (fst (api.complete_task false true db completion "default_user"
                   "2024-01-01T10:00:00")) "default_user" = None
  ∧ api.save_progress true db ProgressData.new "default_user"
      "2024-01-01T10:00:00"
    = (db, HTTPException 500 "Failed to save progress").
Proof.
  cbv zeta. split; [eexists; split; [vm_compute; reflexivity | reflexivity]|].
  vm_compute. repeat split.
Qed.

(** The flag is dropped for every request, not only for that one: whenever
    the update succeeds, the response is the same 200 whether or not the save
    failed. *)
Lemma complete_task_response_ignores_save load_fault db completion user_id
    now_iso :
  snd (api.complete_task load_fault true db completion user_id now_iso)
  = snd (api.complete_task load_fault false db completion user_id now_iso).
Proof.
  destruct (apply_completion
              (default ProgressData.new
                 (db_manager.load_progress load_fault db user_id))
              completion now_iso) as [[progress' earned]|e] eqn:Happ.
  - by rewrite !(complete_task_after_update _ _ _ _ _ _ _ _ Happ).
  - by rewrite !(complete_task_update_raises _ _ _ _ _ _ _ Happ).
Qed.

(** [POST /progress] answers 500 exactly when the save reports failure. *)
Lemma save_progress_reports_failure save_fault db progress user_id now_iso :
  snd (api.save_progress save_fault db progress user_id now_iso)
  = if save_fault then HTTPException 500 "Failed to save progress"
    else HTTP200 [("success", VBool true);
                  ("message", VStr "Progress saved successfully")].
Proof.
  unfold api.save_progress, db_manager.save_progress.
  destruct save_fault; [reflexivity|]. by destruct (pool db).
Qed.

(** C8. [GET /progress] always answers 200, never 404 (nor any other error):
    the stored snapshot when the Gateway's load yields one, otherwise a fresh
    default snapshot with [currentWeek = 1], [totalXP = 0], no completed task
    and the three certifications at 0. With no fault in the load, the
    snapshot stored under the identifier is the one returned. *)
Theorem get_progress_never_404
    (load_fault : bool) (db : DatabaseManager) (user_id : string) :
  (∀ detail, api.get_progress load_fault db user_id
             ≠ HTTPException 404 detail)
  ∧ api.get_progress load_fault db user_id
    = HTTP200 (default ProgressData.new
                 (db_manager.load_progress load_fault db user_id))
  ∧ (∀ progress, stored db user_id = Some progress →
       api.get_progress false db user_id = HTTP200 progress)
  ∧ (stored db user_id = None →
       api.get_progress load_fault db user_id = HTTP200 ProgressData.new)
  ∧ ProgressData.currentWeek ProgressData.new = 1
  ∧ ProgressData.totalXP ProgressData.new = 0
  ∧ ProgressData.completedTasks ProgressData.new = []
  ∧ map_to_list (ProgressData.certificationProgress ProgressData.new)
    ≡ₚ [("Google Cloud AI", 0); ("AWS ML Specialty", 0);
        ("Azure AI Engineer", 0)].
Proof.
  assert (Hget : api.get_progress load_fault db user_id
            = HTTP200 (default ProgressData.new
                         (db_manager.load_progress load_fault db user_id))).
  { unfold api.get_progress.
    by destruct (db_manager.load_progress load_fault db user_id). }
  split; [intros detail; by rewrite Hget|].
  split; [exact Hget|].
  split.
  { intros progress Hstored. unfold api.get_progress.
    unfold stored in Hstored. by rewrite Hstored. }
  split.
  { intros Hnone. rewrite Hget. destruct load_fault; [reflexivity|].
    unfold stored in Hnone. by rewrite Hnone. }
  repeat split.
  unfold ProgressData.new, ProgressData.certificationProgress.
  rewrite !map_to_list_insert, map_to_list_empty by (vm_compute; reflexivity).
  reflexivity.
Qed.

(** ** A completion under an identifier with no stored snapshot *)



(** An int too large for a float makes line 61 raise: the request fails with
    a 500 and nothing is stored. *)
Example complete_task_overflow :
  api.complete_task false false {| pool := None; data_dir := ∅ |}
    (example_completion "t1" (2 ^ 1024) "ai") "new_user" "2024-01-01T10:00:00"
  = ({| pool := None; data_dir := ∅ |},
     HTTPException 500 "Failed to complete task").
Proof. vm_compute. reflexivity. Qed.



(** ** Certification progress over a sequence of completions *)

(** Each first-time completion sets the entry to
    [min(100, current + cert_increase)], whatever the current value. *)
Lemma apply_completion_cert_value progress completion now_iso progress' earned
    current :
  TaskCompletion.taskId completion ∉ ProgressData.completedTasks progress →
  apply_completion progress completion now_iso = Ok (progress', earned) →
  ProgressData.certificationProgress progress !! GCA = Some current →
  ProgressData.certificationProgress progress' !! GCA
  = Some (Z.min 100
            (current + cert_increase (TaskCompletion.category completion))).
Proof.
  intros Hnotin Happ Hcur.
  destruct (apply_completion_fresh _ _ _ _ _ Hnotin Happ)
    as (xp & cur & _ & _ & Hcur' & _ & _ & _ & ->).
  rewrite lookup_insert_eq. congruence.
Qed.

(** One application of the update keeps an entry that is at most 100 between
    its previous value and 100. *)
Lemma apply_completion_cert_step progress completion now_iso progress' earned
    current :
  apply_completion progress completion now_iso = Ok (progress', earned) →
  ProgressData.certificationProgress progress !! GCA = Some current →
  current ≤ 100 →
  ∃ current',
    ProgressData.certificationProgress progress' !! GCA = Some current'
    ∧ current ≤ current' ≤ 100.
Proof.
  intros Happ Hcur Hle.
  destruct (decide (TaskCompletion.taskId completion
                      ∈ ProgressData.completedTasks progress)) as [Hin|Hnotin].
  - rewrite apply_completion_done in Happ by done.
    injection Happ as <- _. exists current. split; [done | lia].
  - eexists. split; [by eapply apply_completion_cert_value|].
    pose proof (cert_increase_bounds (TaskCompletion.category completion)).
    lia.
Qed.

Lemma post_completion_cert_step user_id db request current :
  google_cloud_ai db user_id = Some current →
  current ≤ 100 →
  ∃ current',
    google_cloud_ai (post_completion user_id db request) user_id
    = Some current'
    ∧ current ≤ current' ≤ 100.
Proof.
  intros Hcur Hle. destruct request as [[save_fault completion] now_iso].
  unfold post_completion.
  destruct (apply_completion
              (default ProgressData.new
                 (db_manager.load_progress false db user_id))
              completion now_iso) as [[progress' earned]|e] eqn:Happ.
  - rewrite (complete_task_after_update _ _ _ _ _ _ _ _ Happ). cbn [fst].
    destruct save_fault.
    + rewrite save_progress_fault. exists current. split; [done | lia].
    + unfold google_cloud_ai, current_progress.
      rewrite stored_save_progress. cbn [default].
      by eapply apply_completion_cert_step.
  - rewrite (complete_task_update_raises _ _ _ _ _ _ _ Happ).
    exists current. split; [done | lia].
Qed.

(** C4, as stated, fails for a snapshot whose entry is above 100 (the
    handlers accept any int): from 150 a first capstone completion stores
    [min(100, 150 + 10) = 100], so the entry exceeded 100 before and
    decreased. *)
Lemma certification_above_100_counterexample :
  let progress :=
    with_certificationProgress ProgressData.new
      (<[GCA := 150]> (ProgressData.certificationProgress ProgressData.new)) in
  let db := {| pool := None; data_dir := {["default_user" := progress]} |} in
  let request :=
    (false, example_completion "capstone-1" 100 "capstone",
     "2024-01-01T10:00:00") in
  google_cloud_ai db "default_user" = Some 150
  ∧ google_cloud_ai (post_completions "default_user" db [request])
      "default_user" = Some 100.
Proof. vm_compute. split; reflexivity. Qed.

(** C4, amended. Starting from a snapshot whose "Google Cloud AI" entry is at
    most 100 (the default snapshot has 0), after every sequence of completion
    requests, whatever their events and whether or not their saves fail, the
    entry is at least its starting value and at most 100. *)
Theorem certification_clamped_monotone
    (user_id : string) (requests : list completion_request)
    (db : DatabaseManager) (current : Z) :
  google_cloud_ai db user_id = Some current →
  current ≤ 100 →
  ∃ current',
    google_cloud_ai (post_completions user_id db requests) user_id
    = Some current'
    ∧ current ≤ current' ≤ 100.
Proof.
  revert db current.
  induction requests as [|request requests IH]; intros db current Hcur Hle.
  - exists current. split; [exact Hcur | lia].
  - destruct (post_completion_cert_step user_id db request current Hcur Hle)
      as (mid & Hmid & Hbounds).
    destruct (IH (post_completion user_id db request) mid Hmid
                ltac:(lia)) as (final & Hfinal & Hbounds').
    exists final. split; [exact Hfinal | lia].
Qed.

Lemma certification_clamped_monotone_witness :
  ∃ current',
    google_cloud_ai
      (post_completions "default_user" {| pool := None; data_dir := ∅ |}
         twelve_capstone_requests)
      "default_user" = Some current'
    ∧ 0 ≤ current' ≤ 100.
Proof.
  apply (certification_clamped_monotone "default_user" _
           {| pool := None; data_dir := ∅ |} 0); [reflexivity | lia].
Defined.

(** Twelve capstone completions in a row: the entry stops at 100. *)
Example twelve_capstones :
  google_cloud_ai
    (post_completions "default_user" {| pool := None; data_dir := ∅ |}
       twelve_capstone_requests)
    "default_user" = Some 100.
Proof. vm_compute. reflexivity. Qed.

(** ** Certification readiness *)

Lemma readiness_entry_75 : readiness_entry 75 = Ok readiness_75.
Proof. vm_compute. reflexivity. Qed.

(** The loop gives every certification the entry computed from its own
    percentage. *)
Lemma predict_certification_readiness_lookup progress readiness cert pct :
  predict_certification_readiness progress = Ok readiness →
  ProgressData.certificationProgress progress !! cert = Some pct →
  ∃ entry, readiness_entry pct = Ok entry ∧ readiness !! cert = Some entry.
Proof.
  unfold predict_certification_readiness.
  generalize (ProgressData.certificationProgress progress) as m.
  intros m. revert readiness.
  apply (map_fold_weak_ind
           (fun acc (m : gmap string Z) =>
              ∀ readiness, acc = Ok readiness →
                m !! cert = Some pct →
                ∃ entry, readiness_entry pct = Ok entry
                         ∧ readiness !! cert = Some entry)).
  - intros readiness _ Hlookup. by rewrite lookup_empty in Hlookup.
  - intros c p m' acc Hfresh IH readiness Hacc Hlookup.
    destruct acc as [acc|]; [|discriminate]. simpl in Hacc.
    destruct (readiness_entry p) as [entry|] eqn:Hentry; [|discriminate].
    simpl in Hacc. injection Hacc as <-.
    destruct (decide (c = cert)) as [->|Hne].
    + rewrite lookup_insert_eq in Hlookup. injection Hlookup as ->.
      exists entry. by rewrite lookup_insert_eq.
    + rewrite lookup_insert_ne in Hlookup by done.
      rewrite lookup_insert_ne by done. by apply IH.
Qed.

(** The loop returns when every entry can be computed. *)
Lemma predict_certification_readiness_returns progress :
  map_Forall (fun _ pct => is_ok (readiness_entry pct) = true)
             (ProgressData.certificationProgress progress) →
  ∃ readiness, predict_certification_readiness progress = Ok readiness.
Proof.
  unfold predict_certification_readiness.
  generalize (ProgressData.certificationProgress progress) as m. intros m.
  apply (map_fold_weak_ind
           (fun acc (m : gmap string Z) =>
              map_Forall (fun _ pct => is_ok (readiness_entry pct) = true) m →
              ∃ readiness, acc = Ok readiness)).
  - intros _. by eexists.
  - intros c p m' acc Hfresh IH Hall.
    apply map_Forall_insert in Hall as [Hp Hall]; [|done].
    destruct (IH Hall) as [readiness ->]. simpl.
    destruct (readiness_entry p) as [entry|]; [|discriminate].
    simpl. by eexists.
Qed.

Lemma progress_at_75_lookup :
  ProgressData.certificationProgress progress_at_75 !! GCA = Some 75.
Proof. apply lookup_insert_eq. Qed.

Lemma progress_at_75_readiness :
  ∃ readiness, predict_certification_readiness progress_at_75 = Ok readiness.
Proof.
  apply predict_certification_readiness_returns.
  unfold progress_at_75, with_certificationProgress. cbn.
  repeat (apply map_Forall_insert_2; [vm_compute; reflexivity|]).
  apply map_Forall_empty.
Qed.

(** C7, as stated, fails: at 75 percent the code returns the float 12.5 for
    [estimated_days_to_ready]; no rounding is applied, and 12.5 is not 13. *)
Lemma readiness_75_days_counterexample :
  ∃ readiness entry,
    predict_certification_readiness progress_at_75 = Ok readiness
    ∧ readiness !! GCA = Some entry
    ∧ Readiness.estimated_days_to_ready entry = Py.Float f12_5
    ∧ Qred (Py.Q_of_num (Readiness.estimated_days_to_ready entry)) = 25 # 2
    ∧ Qeq_bool (Py.Q_of_num (Readiness.estimated_days_to_ready entry)) 13
      = false.
Proof.
  destruct progress_at_75_readiness as [readiness Hrun].
  destruct (predict_certification_readiness_lookup _ _ _ _ Hrun
              progress_at_75_lookup) as (entry & Hentry & Hlookup).
  rewrite readiness_entry_75 in Hentry. injection Hentry as <-.
  exists readiness, readiness_75.
  split; [exact Hrun|]. split; [exact Hlookup|].
  vm_compute. repeat split.
Qed.

(** C7, amended. For every snapshot whose "Google Cloud AI" entry is 75, the
    readiness entry for that key has confidence level "high", recommended
    focus "practice_exams" and [estimated_days_to_ready] equal to the float
    12.5 (= max(1, (100 - 75) / 2), unrounded). *)
Theorem readiness_at_75
    (progress : ProgressData.t) (readiness : gmap string Readiness.t) :
  ProgressData.certificationProgress progress !! GCA = Some 75 →
  predict_certification_readiness progress = Ok readiness →
  ∃ entry,
    readiness !! GCA = Some entry
    ∧ Readiness.current_progress entry = 75
    ∧ Readiness.confidence_level entry = "high"
    ∧ Readiness.recommended_focus entry = "practice_exams"
    ∧ Readiness.estimated_days_to_ready entry = Py.Float f12_5
    ∧ (Py.Q_of_num (Readiness.estimated_days_to_ready entry) == 25 # 2)%Q.
Proof.
  intros Hcert Hpredict.
  destruct (predict_certification_readiness_lookup _ _ _ _ Hpredict Hcert)
    as (entry & Hentry & Hlookup).
  rewrite readiness_entry_75 in Hentry. injection Hentry as <-.
  exists readiness_75. split; [exact Hlookup|]. by repeat split.
Qed.

Lemma readiness_at_75_witness :
  ∃ readiness entry,
    predict_certification_readiness progress_at_75 = Ok readiness
    ∧ readiness !! GCA = Some entry
    ∧ Readiness.confidence_level entry = "high"
    ∧ Readiness.recommended_focus entry = "practice_exams"
    ∧ Readiness.estimated_days_to_ready entry = Py.Float f12_5.
Proof.
  destruct progress_at_75_readiness as [readiness Hrun].
  destruct (readiness_at_75 progress_at_75 readiness progress_at_75_lookup
              Hrun)
    as (entry & Hlookup & _ & Hlevel & Hfocus & Hdays & _).
  exists readiness, entry. by repeat split.
Defined.

(** ** The retention sweep *)

(** A faulting sweep, and a sweep in file mode, change nothing. *)
Lemma cleanup_old_data_fault db now : cleanup_old_data true db now = db.
Proof. unfold cleanup_old_data. by destruct (pool db). Qed.

Lemma cleanup_old_data_file_mode fault db now :
  pool db = None → cleanup_old_data fault db now = db.
Proof. intros Hpool. unfold cleanup_old_data. by rewrite Hpool. Qed.

(** C9. One sweep whose [DELETE] executes removes exactly the review rows
    whose [next_review] is strictly before [now - 30 days], keeping the others
    as they were and in their order: a row due 31 days ago is deleted, a row
    due 29 days ago is retained, and the stored snapshots are untouched. *)
Theorem cleanup_old_data_deletes_expired
    (db : DatabaseManager) (now : datetime) :
  review_rows (cleanup_old_data false db now)
  = filter (fun row => ¬ (SpacedRepetitionRow.next_review row
                          < now - timedelta_days 30))
           (review_rows db)
  ∧ (∀ row, row ∈ review_rows (cleanup_old_data false db now)
            ↔ row ∈ review_rows db
              ∧ now - timedelta_days 30
                ≤ SpacedRepetitionRow.next_review row)
  ∧ (∀ row, row ∈ review_rows db →
            SpacedRepetitionRow.next_review row = now - timedelta_days 31 →
            row ∉ review_rows (cleanup_old_data false db now))
  ∧ (∀ row, row ∈ review_rows db →
            SpacedRepetitionRow.next_review row = now - timedelta_days 29 →
            row ∈ review_rows (cleanup_old_data false db now))
  ∧ (∀ user_id, stored (cleanup_old_data false db now) user_id
                = stored db user_id).
Proof.
  assert (Hrows : review_rows (cleanup_old_data false db now)
            = filter (fun row => ¬ (SpacedRepetitionRow.next_review row
                                    < now - timedelta_days 30))
                     (review_rows db)).
  { unfold cleanup_old_data, review_rows.
    destruct (pool db) as [pg|] eqn:Hpool; simpl;
      [reflexivity | by rewrite Hpool]. }
  assert (Hmem : ∀ row, row ∈ review_rows (cleanup_old_data false db now)
            ↔ row ∈ review_rows db
              ∧ now - timedelta_days 30
                ≤ SpacedRepetitionRow.next_review row).
  { intros row. rewrite Hrows, list_elem_of_filter.
    split; intros [H1 H2]; split; first [assumption | lia]. }
  split; [exact Hrows|]. split; [exact Hmem|].
  unfold timedelta_days in *. repeat split.
  - intros row Hin Hdue Hkept. apply Hmem in Hkept as [_ Hkept]. lia.
  - intros row Hin Hdue. apply Hmem. split; [done | lia].
  - intros user_id.
    unfold cleanup_old_data, stored, db_manager.load_progress.
    destruct (pool db) as [pg|] eqn:Hpool; simpl;
      [reflexivity | by rewrite Hpool].
Qed.

(** Two rows, due 31 and 29 days before the sweep: only the second is left. *)
Example cleanup_old_data_31_29 :
  let day := timedelta_days 1 in
  let now := 20000 * day in
  let old := SpacedRepetitionRow.mk 1 "default_user" "t1" (now - 31 * day) in
  let recent := SpacedRepetitionRow.mk 2 "default_user" "t2" (now - 29 * day) in
  review_rows
    (cleanup_old_data false
       {| pool := Some {| user_progress := ∅;
                          spaced_repetition := [old; recent] |};
          data_dir := ∅ |} now)
  = [recent].
Proof. vm_compute. reflexivity. Qed.

(** * Further properties *)

(** ** The update of [complete_task], field by field *)

(** A successful update either was skipped by the guard at line 52 or built
    the snapshot of lines 53-85. *)
Lemma apply_completion_inv (progress progress' : ProgressData.t)
    (completion : TaskCompletion.t) (now_iso : string) (earned : option Z) :
  apply_completion progress completion now_iso = Ok (progress', earned) →
  (TaskCompletion.taskId completion ∈ ProgressData.completedTasks progress
   ∧ progress' = progress ∧ earned = None)
  ∨ ((TaskCompletion.taskId completion
        ∉ ProgressData.completedTasks progress)
     ∧ ∃ xp current,
         earned = Some xp
         ∧ earned_xp completion = Ok xp
         ∧ ProgressData.certificationProgress progress !! GCA = Some current
         ∧ ProgressData.totalXP progress' = ProgressData.totalXP progress + xp
         ∧ ProgressData.dailyXP progress' = ProgressData.dailyXP progress + xp
         ∧ ProgressData.completedTasks progress'
           = (ProgressData.completedTasks progress
                ++ [TaskCompletion.taskId completion])%list
         ∧ ProgressData.portfolioItems progress'
           = (if bool_decide (TaskCompletion.category completion
                                ∈ ["project"; "capstone"])
              then (ProgressData.portfolioItems progress
                      ++ [portfolio_item completion now_iso xp])%list
              else ProgressData.portfolioItems progress)
         ∧ ProgressData.notes progress'
           = match truthy_notes (TaskCompletion.notes completion) with
             | Some n => <[TaskCompletion.taskId completion := n]>
                           (ProgressData.notes progress)
             | None => ProgressData.notes progress
             end
         ∧ ProgressData.currentWeek progress'
           = ProgressData.currentWeek progress
         ∧ ProgressData.currentDay progress' = ProgressData.currentDay progress
         ∧ ProgressData.streak progress' = ProgressData.streak progress
         ∧ ProgressData.struggledTasks progress'
           = ProgressData.struggledTasks progress
         ∧ ProgressData.difficultyLevel progress'
           = ProgressData.difficultyLevel progress
         ∧ ProgressData.lastUpdated progress'
           = ProgressData.lastUpdated progress).
Proof.
  unfold apply_completion. case_bool_decide as Hin.
  - intros [= <- <-]. by left.
  - destruct (earned_xp completion) as [xp|]; [|discriminate]. simpl.
    unfold getitem.
    destruct (ProgressData.certificationProgress progress !! GCA)
      as [current|]; [|discriminate]. simpl.
    intros [= <- <-]. right. split; [done|]. exists xp, current. simpl. done.
Qed.

(** X1. A successful update never touches [currentWeek], [currentDay],
    [streak], [struggledTasks], [difficultyLevel] or [lastUpdated]: it does
    not stamp the snapshot, unlike [POST /progress]. *)
Theorem apply_completion_untouched_fields
    (progress progress' : ProgressData.t) (completion : TaskCompletion.t)
    (now_iso : string) (earned : option Z) :
  apply_completion progress completion now_iso = Ok (progress', earned) →
  ProgressData.currentWeek progress' = ProgressData.currentWeek progress
  ∧ ProgressData.currentDay progress' = ProgressData.currentDay progress
  ∧ ProgressData.streak progress' = ProgressData.streak progress
  ∧ ProgressData.struggledTasks progress'
    = ProgressData.struggledTasks progress
  ∧ ProgressData.difficultyLevel progress'
    = ProgressData.difficultyLevel progress
  ∧ ProgressData.lastUpdated progress' = ProgressData.lastUpdated progress.
Proof.
  intros Happ.
  destruct (apply_completion_inv _ _ _ _ _ Happ)
    as [(_ & -> & _)
       |(_ & xp & current & _ & _ & _ & _ & _ & _ & _ & _
           & Hweek & Hday & Hstreak & Hstruggled & Hlevel & Hstamp)];
    done.
Qed.

Lemma apply_completion_untouched_fields_witness :
  ∃ progress' earned,
    apply_completion progress_in_week_3
      (example_completion "t1" 100 "capstone") "2024-01-01T10:00:00"
    = Ok (progress', earned)
    ∧ ProgressData.currentWeek progress' = 3
    ∧ ProgressData.streak progress' = 7
    ∧ ProgressData.lastUpdated progress' = Some "2023-12-31T09:00:00".
Proof.
  assert (Hrun : ∃ progress' earned,
             apply_completion progress_in_week_3
               (example_completion "t1" 100 "capstone") "2024-01-01T10:00:00"
             = Ok (progress', earned))
    by (eexists _, _; vm_compute; reflexivity).
  destruct Hrun as (progress' & earned & Hrun).
  exists progress', earned. split; [exact Hrun|].
  destruct (apply_completion_untouched_fields _ _ _ _ _ Hrun)
    as (Hweek & _ & Hstreak & _ & _ & Hstamp).
  rewrite Hweek, Hstreak, Hstamp. repeat split; reflexivity.
Defined.

(** X2. [completedTasks] only grows, by at most the task of the event and at
    its end, and a list without duplicates stays without duplicates. *)
Theorem apply_completion_no_duplicates
    (progress progress' : ProgressData.t) (completion : TaskCompletion.t)
    (now_iso : string) (earned : option Z) :
  apply_completion progress completion now_iso = Ok (progress', earned) →
  (ProgressData.completedTasks progress'
   = ProgressData.completedTasks progress
   ∨ ProgressData.completedTasks progress'
     = (ProgressData.completedTasks progress
          ++ [TaskCompletion.taskId completion])%list)
  ∧ (∀ task, task ∈ ProgressData.completedTasks progress →
             task ∈ ProgressData.completedTasks progress')
  ∧ (NoDup (ProgressData.completedTasks progress) →
     NoDup (ProgressData.completedTasks progress')).
Proof.
  intros Happ.
  destruct (apply_completion_inv _ _ _ _ _ Happ)
    as [(_ & -> & _)
       |(Hnotin & xp & current & _ & _ & _ & _ & _ & -> & _)].
  - split; [by left|]. split; [done|]. done.
  - split; [by right|]. split; [set_solver|].
    intros Hnodup. apply NoDup_app. split; [done|].
    split; [|apply NoDup_singleton].
    intros task Htask Hsingle. apply list_elem_of_singleton in Hsingle.
    by subst.
Qed.

Lemma apply_completion_no_duplicates_witness :
  ∃ progress' earned,
    apply_completion progress_in_week_3
      (example_completion "t1" 100 "capstone") "2024-01-01T10:00:00"
    = Ok (progress', earned)
    ∧ NoDup (ProgressData.completedTasks progress').
Proof.
  assert (Hrun : ∃ progress' earned,
             apply_completion progress_in_week_3
               (example_completion "t1" 100 "capstone") "2024-01-01T10:00:00"
             = Ok (progress', earned))
    by (eexists _, _; vm_compute; reflexivity).
  destruct Hrun as (progress' & earned & Hrun).
  exists progress', earned. split; [exact Hrun|].
  apply (apply_completion_no_duplicates _ _ _ _ _ Hrun).
  apply NoDup_singleton.
Defined.

(** X3. The portfolio: a first-time completion of category "project" or
    "capstone" appends exactly one item, carrying the task id, the category
    and the earned XP; every other successful update leaves [portfolioItems]
    as it was. *)
Theorem apply_completion_portfolio
    (progress progress' : ProgressData.t) (completion : TaskCompletion.t)
    (now_iso : string) (earned : option Z) :
  apply_completion progress completion now_iso = Ok (progress', earned) →
  (TaskCompletion.taskId completion ∉ ProgressData.completedTasks progress →
   TaskCompletion.category completion = "project"
   ∨ TaskCompletion.category completion = "capstone" →
   ∃ xp item,
     earned_xp completion = Ok xp
     ∧ ProgressData.portfolioItems progress'
       = (ProgressData.portfolioItems progress ++ [item])%list
     ∧ item !! 0%nat = Some ("id", VStr (TaskCompletion.taskId completion))
     ∧ item !! 2%nat = Some ("completedDate", VStr now_iso)
     ∧ item !! 3%nat = Some ("type", VStr (TaskCompletion.category completion))
     ∧ item !! 4%nat = Some ("xp", VInt xp))
  ∧ (TaskCompletion.category completion ≠ "project" →
     TaskCompletion.category completion ≠ "capstone" →
     ProgressData.portfolioItems progress'
     = ProgressData.portfolioItems progress)
  ∧ (TaskCompletion.taskId completion ∈ ProgressData.completedTasks progress →
     ProgressData.portfolioItems progress'
     = ProgressData.portfolioItems progress).
Proof.
  intros Happ.
  destruct (apply_completion_inv _ _ _ _ _ Happ)
    as [(Hin & -> & _)
       |(Hnotin & xp & current & _ & Hxp & _ & _ & _ & _ & Hportfolio & _)].
  - split; [done|]. split; done.
  - split; [|split].
    + intros _ Hcat. exists xp, (portfolio_item completion now_iso xp).
      split; [done|]. rewrite Hportfolio.
      rewrite bool_decide_eq_true_2 by (destruct Hcat as [-> | ->]; set_solver).
      done.
    + intros Hproject Hcapstone. rewrite Hportfolio.
      rewrite bool_decide_eq_false_2; [done|].
      rewrite !elem_of_cons, elem_of_nil. tauto.
    + done.
Qed.

Lemma apply_completion_portfolio_witness :
  ∃ progress' earned,
    apply_completion progress_in_week_3
      (example_completion "t1" 100 "project") "2024-01-01T10:00:00"
    = Ok (progress', earned)
    ∧ ∃ item,
        ProgressData.portfolioItems progress' = [item]
        ∧ item !! 3%nat = Some ("type", VStr "project")
        ∧ item !! 4%nat = Some ("xp", VInt 120).
Proof.
  assert (Hrun : ∃ progress' earned,
             apply_completion progress_in_week_3
               (example_completion "t1" 100 "project") "2024-01-01T10:00:00"
             = Ok (progress', earned))
    by (eexists _, _; vm_compute; reflexivity).
  destruct Hrun as (progress' & earned & Hrun).
  exists progress', earned. split; [exact Hrun|].
  destruct (apply_completion_portfolio _ _ _ _ _ Hrun) as (Hadd & _ & _).
  destruct Hadd as (xp & item & Hxp & Hitems & _ & _ & Htype & Hitem_xp);
    [cbn; by intros ?%list_elem_of_singleton | by left |].
  vm_compute in Hxp. injection Hxp as <-.
  exists item. split; [exact Hitems|]. split; [exact Htype | exact Hitem_xp].
Defined.

(** X4. The notes: a first-time completion with a non-empty note stores it
    under the task id and keeps every other note; with no note, or the empty
    string, the notes stay as they were. *)
Theorem apply_completion_notes
    (progress progress' : ProgressData.t) (completion : TaskCompletion.t)
    (now_iso : string) (earned : option Z) :
  apply_completion progress completion now_iso = Ok (progress', earned) →
  (∀ note,
     TaskCompletion.taskId completion ∉ ProgressData.completedTasks progress →
     TaskCompletion.notes completion = Some note → note ≠ "" →
     ProgressData.notes progress' !! TaskCompletion.taskId completion
     = Some note
     ∧ ∀ task, task ≠ TaskCompletion.taskId completion →
               ProgressData.notes progress' !! task
               = ProgressData.notes progress !! task)
  ∧ (TaskCompletion.notes completion = None
     ∨ TaskCompletion.notes completion = Some "" →
     ProgressData.notes progress' = ProgressData.notes progress)
  ∧ (TaskCompletion.taskId completion ∈ ProgressData.completedTasks progress →
     ProgressData.notes progress' = ProgressData.notes progress).
Proof.
  intros Happ.
  destruct (apply_completion_inv _ _ _ _ _ Happ)
    as [(Hin & -> & _)
       |(Hnotin & xp & current & _ & _ & _ & _ & _ & _ & _ & Hnotes & _)].
  - split; [done|]. split; done.
  - split; [|split].
    + intros note _ Hnote Hnonempty. rewrite Hnotes, Hnote. simpl.
      rewrite bool_decide_eq_false_2 by done.
      split; [apply lookup_insert_eq|].
      intros task Hne. by rewrite lookup_insert_ne.
    + intros [Hnote|Hnote]; rewrite Hnotes, Hnote; reflexivity.
    + done.
Qed.

Lemma apply_completion_notes_witness :
  ∃ progress' earned,
    apply_completion progress_in_week_3
      (noted_completion "t1" 100 "ai" "read the paper twice")
      "2024-01-01T10:00:00"
    = Ok (progress', earned)
    ∧ ProgressData.notes progress' !! "t1" = Some "read the paper twice"
    ∧ ProgressData.notes progress' !! "t0" = Some "first note".
Proof.
  assert (Hrun : ∃ progress' earned,
             apply_completion progress_in_week_3
               (noted_completion "t1" 100 "ai" "read the paper twice")
               "2024-01-01T10:00:00"
             = Ok (progress', earned))
    by (eexists _, _; vm_compute; reflexivity).
  destruct Hrun as (progress' & earned & Hrun).
  exists progress', earned. split; [exact Hrun|].
  destruct (apply_completion_notes _ _ _ _ _ Hrun) as (Hnote & _ & _).
  destruct (Hnote "read the paper twice") as (Hnew & Hold);
    [cbn; by intros ?%list_elem_of_singleton | reflexivity | discriminate |].
  split; [exact Hnew|].
  rewrite (Hold "t0") by discriminate. reflexivity.
Defined.

(** ** Sequences of completion requests *)

(** One request with a new task, a computable XP and a working save. *)
Lemma post_completion_fresh user_id db completion now_iso xp current :
  TaskCompletion.taskId completion
    ∉ ProgressData.completedTasks (current_progress db user_id) →
  earned_xp completion = Ok xp →
  google_cloud_ai db user_id = Some current →
  let db' := post_completion user_id db (false, completion, now_iso) in
  ProgressData.totalXP (current_progress db' user_id)
  = ProgressData.totalXP (current_progress db user_id) + xp
  ∧ ProgressData.dailyXP (current_progress db' user_id)
    = ProgressData.dailyXP (current_progress db user_id) + xp
  ∧ ProgressData.completedTasks (current_progress db' user_id)
    = (ProgressData.completedTasks (current_progress db user_id)
         ++ [TaskCompletion.taskId completion])%list
  ∧ ∃ current', google_cloud_ai db' user_id = Some current'.
Proof.
  intros Hnotin Hxp Hcur db'. subst db'. unfold post_completion.
  destruct (apply_completion_returns _ _ now_iso _ _ Hnotin Hxp Hcur)
    as [progress' Happ].
  assert (Hstored :
            current_progress
              (fst (api.complete_task false false db completion user_id
                      now_iso)) user_id = progress').
  { unfold current_progress, stored in Happ.
    rewrite (complete_task_after_update _ _ _ _ _ _ _ _ Happ). cbn [fst].
    unfold current_progress. by rewrite stored_save_progress. }
  unfold google_cloud_ai. rewrite Hstored.
  destruct (apply_completion_inv _ _ _ _ _ Happ)
    as [(Hin & _)
       |(_ & xp' & current0 & [= <-] & _ & _ & -> & -> & -> & _)];
    [done|].
  repeat split.
  eexists. by eapply apply_completion_cert_value.
Qed.

(** X5. XP accounting over a sequence of requests. When the requests name
    pairwise different tasks, none of them completed yet, every save works and
    line 61 yields an int for every event, the stored [totalXP] and [dailyXP]
    grow by exactly the sum of the earned XP, and [completedTasks] by the
    tasks in the order of the requests. *)
Theorem post_completions_total_xp
    (user_id : string) (requests : list completion_request) (xps : list Z)
    (db : DatabaseManager) (current : Z) :
  Forall2 (fun request xp =>
             request.1.1 = false ∧ earned_xp request.1.2 = Ok xp)
          requests xps →
  NoDup (request_task <$> requests) →
  (∀ request, request ∈ requests →
     request_task request
       ∉ ProgressData.completedTasks (current_progress db user_id)) →
  google_cloud_ai db user_id = Some current →
  let progress := current_progress db user_id in
  let progress' :=
    current_progress (post_completions user_id db requests) user_id in
  ProgressData.totalXP progress' = ProgressData.totalXP progress + sum_xp xps
  ∧ ProgressData.dailyXP progress'
    = ProgressData.dailyXP progress + sum_xp xps
  ∧ ProgressData.completedTasks progress'
    = (ProgressData.completedTasks progress
         ++ (request_task <$> requests))%list.
Proof.
  intros Hall. revert db current.
  induction Hall as [|request xp requests xps [Hsave Hxp] Hall IH];
    intros db current Hnodup Hnew Hcur; cbn zeta.
  - simpl. rewrite app_nil_r. split; [lia|]. split; [lia | done].
  - destruct request as [[save_fault completion] now_iso].
    simpl in Hsave, Hxp. subst save_fault.
    rewrite fmap_cons in Hnodup. apply NoDup_cons in Hnodup as [Hhead Hnodup].
    destruct (post_completion_fresh user_id db completion now_iso xp current)
      as (Htotal & Hdaily & Hcompleted & current' & Hcur');
      [apply (Hnew (false, completion, now_iso)); left | done | done |].
    destruct (IH (post_completion user_id db (false, completion, now_iso))
                current' Hnodup) as (Htotal' & Hdaily' & Hcompleted');
      [|exact Hcur'|].
    + intros request Hrequest. rewrite Hcompleted.
      intros [Hin|Hin%list_elem_of_singleton]%elem_of_app.
      * by apply (Hnew request); [right|].
      * apply Hhead. unfold request_task at 1. simpl. rewrite <- Hin.
        by apply list_elem_of_fmap_2.
    + change (post_completions user_id db
                ((false, completion, now_iso) :: requests))
        with (post_completions user_id
                (post_completion user_id db (false, completion, now_iso))
                requests).
      rewrite Htotal', Hdaily', Hcompleted', Htotal, Hdaily, Hcompleted.
      simpl. unfold request_task at 2. simpl.
      rewrite <- app_assoc. simpl. split; [lia|]. split; [lia | done].
Qed.

Lemma post_completions_total_xp_witness :
  ProgressData.totalXP
    (current_progress
       (post_completions "default_user" {| pool := None; data_dir := ∅ |}
          twelve_capstone_requests)
       "default_user")
  = 1800.
Proof.
  destruct (post_completions_total_xp "default_user" twelve_capstone_requests
              (replicate 12 150) {| pool := None; data_dir := ∅ |} 0)
    as (Htotal & _ & _).
  - unfold twelve_capstone_requests. cbn [fmap list_fmap replicate].
    repeat (constructor; [split; [reflexivity | vm_compute; reflexivity]|]).
    constructor.
  - apply (bool_decide_unpack _). vm_compute. exact I.
  - intros request _. cbn. apply not_elem_of_nil.
  - reflexivity.
  - rewrite Htotal. reflexivity.
Defined.

(** ** Errors of [POST /task/complete] *)

(** X6. A stored snapshot without the key "Google Cloud AI" (the handlers
    accept any dict) makes every first-time completion fail: line 69 raises
    [KeyError], the handler answers 500 and stores nothing. A task already in
    [completedTasks] still answers 200, since the guard skips line 69. *)
Theorem complete_task_missing_certification
    (load_fault save_fault : bool) (db : DatabaseManager)
    (completion : TaskCompletion.t) (user_id now_iso : string) :
  let progress :=
    default ProgressData.new
      (db_manager.load_progress load_fault db user_id) in
  ProgressData.certificationProgress progress !! GCA = None →
  (TaskCompletion.taskId completion ∉ ProgressData.completedTasks progress →
   api.complete_task load_fault save_fault db completion user_id now_iso
   = (db, HTTPException 500 "Failed to complete task"))
  ∧ (TaskCompletion.taskId completion ∈ ProgressData.completedTasks progress →
     snd (api.complete_task load_fault save_fault db completion user_id
            now_iso)
     = HTTP200 (complete_task_body 0 (ProgressData.totalXP progress))).
Proof.
  intros progress Hmissing. split.
  - intros Hnotin.
    destruct (apply_completion progress completion now_iso)
      as [[progress' earned]|e] eqn:Happ.
    + destruct (apply_completion_inv _ _ _ _ _ Happ)
        as [(Hin & _)|(_ & xp & current & _ & _ & Hcur & _)]; [done|].
      by rewrite Hmissing in Hcur.
    + by eapply complete_task_update_raises.
  - intros Hin.
    pose proof (apply_completion_done progress completion now_iso Hin)
      as Happ.
    by rewrite (complete_task_after_update _ _ _ _ _ _ _ _ Happ).
Qed.

Lemma complete_task_missing_certification_witness :
  api.complete_task false false
    (db_with "default_user" progress_without_certifications)
    (example_completion "t1" 100 "ai") "default_user" "2024-01-01T10:00:00"
  = (db_with "default_user" progress_without_certifications,
     HTTPException 500 "Failed to complete task").
Proof.
  apply (complete_task_missing_certification false false
           (db_with "default_user" progress_without_certifications)
           (example_completion "t1" 100 "ai") "default_user"
           "2024-01-01T10:00:00").
  - reflexivity.
  - cbn. apply not_elem_of_nil.
Defined.

(** X7. Whenever [POST /task/complete] answers with an error, the error is
    the 500 "Failed to complete task" and the database is left as it was: the
    save at line 88 is reached only after the whole update succeeded. *)
Theorem complete_task_error_stores_nothing
    (load_fault save_fault : bool) (db : DatabaseManager)
    (completion : TaskCompletion.t) (user_id now_iso : string)
    (status_code : Z) (detail : string) :
  snd (api.complete_task load_fault save_fault db completion user_id now_iso)
  = HTTPException status_code detail →
  fst (api.complete_task load_fault save_fault db completion user_id now_iso)
  = db
  ∧ status_code = 500
  ∧ detail = "Failed to complete task".
Proof.
  destruct (apply_completion
              (default ProgressData.new
                 (db_manager.load_progress load_fault db user_id))
              completion now_iso) as [[progress' earned]|e] eqn:Happ.
  - by rewrite (complete_task_after_update _ _ _ _ _ _ _ _ Happ).
  - rewrite (complete_task_update_raises _ _ _ _ _ _ _ Happ). simpl.
    by intros [= <- <-].
Qed.

Lemma complete_task_error_stores_nothing_witness :
  fst (api.complete_task false false {| pool := None; data_dir := ∅ |}
         (example_completion "t1" (2 ^ 1024) "ai") "default_user"
         "2024-01-01T10:00:00")
  = {| pool := None; data_dir := ∅ |}
  ∧ 500 = 500
  ∧ "Failed to complete task" = "Failed to complete task".
Proof.
  apply (complete_task_error_stores_nothing false false
           {| pool := None; data_dir := ∅ |}
           (example_completion "t1" (2 ^ 1024) "ai") "default_user"
           "2024-01-01T10:00:00" 500 "Failed to complete task").
  vm_compute. reflexivity.
Defined.

(** X8. A load that fails is taken for "no snapshot yet": when the load at
    line 49 faults and the save works, the handler stores the default snapshot
    with the one event applied, whatever was stored before. *)
Theorem complete_task_load_fault_overwrites
    (db : DatabaseManager) (completion : TaskCompletion.t)
    (user_id now_iso : string) (xp : Z) :
  earned_xp completion = Ok xp →
  ∃ progress',
    apply_completion ProgressData.new completion now_iso
    = Ok (progress', Some xp)
    ∧ snd (api.complete_task true false db completion user_id now_iso)
      = HTTP200 (complete_task_body 0 xp)
    ∧ stored (fst (api.complete_task true false db completion user_id
                     now_iso)) user_id = Some progress'
    ∧ ProgressData.totalXP progress' = xp
    ∧ ProgressData.completedTasks progress'
      = [TaskCompletion.taskId completion].
Proof.
  intros Hxp.
  destruct (apply_completion_returns ProgressData.new completion now_iso xp 0)
    as [progress' Happ]; [apply not_elem_of_nil | done | reflexivity |].
  exists progress'. split; [exact Happ|].
  assert (Hloaded :
            apply_completion
              (default ProgressData.new
                 (db_manager.load_progress true db user_id))
              completion now_iso = Ok (progress', Some xp))
    by (by rewrite load_progress_fault).
  rewrite (complete_task_after_update _ _ _ _ _ _ _ _ Hloaded).
  cbn [fst snd]. rewrite stored_save_progress.
  destruct (apply_completion_inv _ _ _ _ _ Happ)
    as [(Hin & _)|(_ & xp' & current & [= <-] & _ & _ & -> & _ & -> & _)].
  - by apply not_elem_of_nil in Hin.
  - simpl. done.
Qed.

Lemma complete_task_load_fault_overwrites_witness :
  ∃ progress',
    stored (db_with "default_user" progress_in_week_3) "default_user"
    = Some progress_in_week_3
    ∧ stored (fst (api.complete_task true false
                     (db_with "default_user" progress_in_week_3)
                     (example_completion "t1" 100 "ai") "default_user"
                     "2024-01-01T10:00:00")) "default_user" = Some progress'
    ∧ ProgressData.totalXP progress' = 100
    ∧ ProgressData.completedTasks progress' = ["t1"].
Proof.
  destruct (complete_task_load_fault_overwrites
              (db_with "default_user" progress_in_week_3)
              (example_completion "t1" 100 "ai") "default_user"
              "2024-01-01T10:00:00" 100)
    as (progress' & _ & _ & Hstored & Htotal & Hcompleted);
    [vm_compute; reflexivity|].
  exists progress'. split; [reflexivity|]. split; [exact Hstored|].
  split; [exact Htotal | exact Hcompleted].
Defined.

(** ** The store across users and requests *)

Lemma stored_save_progress_other fault db user_id other progress :
  user_id ≠ other →
  stored (fst (db_manager.save_progress fault db user_id progress)) other
  = stored db other.
Proof.
  intros Hne. destruct fault.
  - by rewrite save_progress_fault.
  - by apply stored_save_progress_ne.
Qed.

(** X9. The two writing handlers touch one user only: whatever they are
    sent and whether or not their gateway calls fault, the snapshot stored
    under every other identifier, and so what [GET /progress] answers for it,
    is what it was. *)
Theorem writes_keep_other_users
    (load_fault save_fault : bool) (db : DatabaseManager)
    (completion : TaskCompletion.t) (progress : ProgressData.t)
    (user_id other now_iso : string) :
  user_id ≠ other →
  let db1 :=
    fst (api.complete_task load_fault save_fault db completion user_id
           now_iso) in
  let db2 := fst (api.save_progress save_fault db progress user_id now_iso) in
  stored db1 other = stored db other
  ∧ stored db2 other = stored db other
  ∧ api.get_progress false db1 other = api.get_progress false db other
  ∧ api.get_progress false db2 other = api.get_progress false db other.
Proof.
  intros Hne db1 db2.
  assert (H1 : stored db1 other = stored db other).
  { subst db1.
    destruct (apply_completion
                (default ProgressData.new
                   (db_manager.load_progress load_fault db user_id))
                completion now_iso) as [[progress' earned]|e] eqn:Happ.
    - rewrite (complete_task_after_update _ _ _ _ _ _ _ _ Happ). cbn [fst].
      by apply stored_save_progress_other.
    - by rewrite (complete_task_update_raises _ _ _ _ _ _ _ Happ). }
  assert (H2 : stored db2 other = stored db other).
  { subst db2. unfold api.save_progress.
    destruct (db_manager.save_progress save_fault db user_id
                (set_lastUpdated progress (Some now_iso)))
      as [db' success] eqn:Hsave.
    cbn [fst].
    replace db' with
      (fst (db_manager.save_progress save_fault db user_id
              (set_lastUpdated progress (Some now_iso))))
      by (by rewrite Hsave).
    by apply stored_save_progress_other. }
  split; [exact H1|]. split; [exact H2|].
  unfold api.get_progress. unfold stored in H1, H2. by rewrite H1, H2.
Qed.

Lemma writes_keep_other_users_witness :
  stored (fst (api.complete_task false false
                 (db_with "alice" progress_in_week_3)
                 (example_completion "t1" 100 "ai") "bob"
                 "2024-01-01T10:00:00")) "alice"
  = Some progress_in_week_3.
Proof.
  apply (writes_keep_other_users false false
           (db_with "alice" progress_in_week_3)
           (example_completion "t1" 100 "ai") ProgressData.new
           "bob" "alice" "2024-01-01T10:00:00").
  discriminate.
Defined.

(** X10. [POST /progress] followed by [GET /progress]: when the save works,
    the post answers 200 and the get returns the posted snapshot with
    [lastUpdated] replaced by the clock reading of the post, every other
    field as posted, whatever was stored before. *)
Theorem save_progress_then_get_progress
    (db : DatabaseManager) (progress : ProgressData.t)
    (user_id now_iso : string) :
  let db' := fst (api.save_progress false db progress user_id now_iso) in
  snd (api.save_progress false db progress user_id now_iso)
  = HTTP200 [("success", VBool true);
             ("message", VStr "Progress saved successfully")]
  ∧ api.get_progress false db' user_id
    = HTTP200 (set_lastUpdated progress (Some now_iso))
  ∧ ∃ progress',
      stored db' user_id = Some progress'
      ∧ ProgressData.lastUpdated progress' = Some now_iso
      ∧ set_lastUpdated progress' (ProgressData.lastUpdated progress)
        = set_lastUpdated progress (ProgressData.lastUpdated progress).
Proof.
  intros db'.
  assert (Hstored : stored db' user_id
                    = Some (set_lastUpdated progress (Some now_iso))).
  { subst db'. unfold api.save_progress.
    destruct (db_manager.save_progress false db user_id
                (set_lastUpdated progress (Some now_iso)))
      as [db1 success] eqn:Hsave.
    cbn [fst].
    replace db1 with
      (fst (db_manager.save_progress false db user_id
              (set_lastUpdated progress (Some now_iso))))
      by (by rewrite Hsave).
    apply stored_save_progress. }
  split; [by rewrite save_progress_reports_failure|].
  split.
  - unfold api.get_progress. unfold stored in Hstored. by rewrite Hstored.
  - eexists. split; [exact Hstored|]. done.
Qed.

(** X11. When the save works, what [POST /task/complete] reports and what it
    stores agree: the [total_xp] of the response is the [totalXP] that
    [GET /progress] returns next. *)
Theorem complete_task_then_get_progress
    (load_fault : bool) (db : DatabaseManager) (completion : TaskCompletion.t)
    (user_id now_iso : string) (body : pydict) :
  snd (api.complete_task load_fault false db completion user_id now_iso)
  = HTTP200 body →
  ∃ progress',
    api.get_progress false
      (fst (api.complete_task load_fault false db completion user_id now_iso))
      user_id = HTTP200 progress'
    ∧ body = complete_task_body 0 (ProgressData.totalXP progress')
    ∧ TaskCompletion.taskId completion
        ∈ ProgressData.completedTasks progress'.
Proof.
  destruct (apply_completion
              (default ProgressData.new
                 (db_manager.load_progress load_fault db user_id))
              completion now_iso) as [[progress' earned]|e] eqn:Happ.
  - rewrite (complete_task_after_update _ _ _ _ _ _ _ _ Happ).
    cbn [fst snd]. intros [= <-]. exists progress'.
    split; [|split; [done | by eapply apply_completion_completed]].
    unfold api.get_progress.
    pose proof (stored_save_progress db user_id progress') as Hstored.
    unfold stored in Hstored. by rewrite Hstored.
  - by rewrite (complete_task_update_raises _ _ _ _ _ _ _ Happ).
Qed.

Lemma complete_task_then_get_progress_witness :
  ∃ progress',
    api.get_progress false
      (fst (api.complete_task false false
              (db_with "default_user" progress_in_week_3)
              (example_completion "t1" 100 "project") "default_user"
              "2024-01-01T10:00:00"))
      "default_user" = HTTP200 progress'
    ∧ complete_task_body 0 5120
      = complete_task_body 0 (ProgressData.totalXP progress').
Proof.
  destruct (complete_task_then_get_progress false
              (db_with "default_user" progress_in_week_3)
              (example_completion "t1" 100 "project") "default_user"
              "2024-01-01T10:00:00" (complete_task_body 0 5120))
    as (progress' & Hget & Hbody & _); [vm_compute; reflexivity|].
  exists progress'. split; [exact Hget | exact Hbody].
Defined.

(** ** Certification readiness for every certification *)

Lemma predict_certification_readiness_dom progress readiness :
  predict_certification_readiness progress = Ok readiness →
  dom readiness = dom (ProgressData.certificationProgress progress).
Proof.
  unfold predict_certification_readiness.
  generalize (ProgressData.certificationProgress progress) as m.
  intros m. revert readiness.
  apply (map_fold_weak_ind
           (fun acc (m : gmap string Z) =>
              ∀ readiness, acc = Ok readiness → dom readiness = dom m)).
  - intros readiness [= <-]. by rewrite !dom_empty_L.
  - intros c p m' acc Hfresh IH readiness Hacc.
    destruct acc as [acc|]; [|discriminate]. simpl in Hacc.
    destruct (readiness_entry p) as [entry|]; [|discriminate].
    simpl in Hacc. injection Hacc as <-.
    rewrite !dom_insert_L. by rewrite (IH acc).
Qed.

Lemma readiness_entry_fields pct entry :
  readiness_entry pct = Ok entry →
  Readiness.current_progress entry = pct
  ∧ Readiness.confidence_level entry
    = (if bool_decide (pct > 70) then "high"
       else if bool_decide (pct > 40) then "medium" else "low")
  ∧ Readiness.recommended_focus entry
    = (if bool_decide (pct > 60) then "practice_exams"
       else "foundation_building").
Proof.
  unfold readiness_entry.
  destruct (Py.int_truediv_2 (100 - pct)) as [half|]; [|discriminate].
  simpl. by intros [= <-].
Qed.

(** X12. The readiness dict has exactly the keys of
    [certificationProgress], and the entry of each certification is computed
    from its own percentage alone: it repeats the percentage, is "high" above
    70, "medium" above 40 up to 70 and "low" up to 40, and recommends practice
    exams above 60 and foundation building up to 60. *)
Theorem predict_certification_readiness_entries
    (progress : ProgressData.t) (readiness : gmap string Readiness.t) :
  predict_certification_readiness progress = Ok readiness →
  dom readiness = dom (ProgressData.certificationProgress progress)
  ∧ ∀ cert entry,
      readiness !! cert = Some entry →
      ∃ pct,
        ProgressData.certificationProgress progress !! cert = Some pct
        ∧ Readiness.current_progress entry = pct
        ∧ (Readiness.confidence_level entry = "high" ↔ 70 < pct)
        ∧ (Readiness.confidence_level entry = "medium" ↔ 40 < pct ≤ 70)
        ∧ (Readiness.confidence_level entry = "low" ↔ pct ≤ 40)
        ∧ (Readiness.recommended_focus entry = "practice_exams" ↔ 60 < pct)
        ∧ (Readiness.recommended_focus entry = "foundation_building"
           ↔ pct ≤ 60).
Proof.
  intros Hrun.
  pose proof (predict_certification_readiness_dom _ _ Hrun) as Hdom.
  split; [exact Hdom|].
  intros cert entry Hentry.
  assert (Hin : cert ∈ dom (ProgressData.certificationProgress progress))
    by (rewrite <- Hdom; by eapply elem_of_dom_2).
  apply elem_of_dom in Hin as [pct Hpct]. exists pct.
  split; [exact Hpct|].
  destruct (predict_certification_readiness_lookup _ _ _ _ Hrun Hpct)
    as (entry' & Hcomputed & Hentry').
  rewrite Hentry in Hentry'. injection Hentry' as <-.
  destruct (readiness_entry_fields _ _ Hcomputed) as (-> & -> & ->).
  split; [done|].
  repeat case_bool_decide; repeat split; intros; try done; try lia.
Qed.

Lemma predict_certification_readiness_entries_witness :
  ∃ readiness,
    predict_certification_readiness progress_at_75 = Ok readiness
    ∧ dom readiness
      = dom (ProgressData.certificationProgress progress_at_75).
Proof.
  destruct progress_at_75_readiness as [readiness Hrun].
  exists readiness. split; [exact Hrun|].
  apply (predict_certification_readiness_entries _ _ Hrun).
Defined.

Lemma elem_of_checked_percentages pct :
  -1000 ≤ pct ≤ 1000 → In pct checked_percentages.
Proof.
  intros Hrange. apply list_elem_of_In. apply elem_of_ints_from. lia.
Qed.

Lemma days_agree_checked : forallb days_agree checked_percentages = true.
Proof. vm_compute. reflexivity. Qed.

(** X13. The estimate of line 30 is never rounded. For every percentage from
    -1000 to 1000 the entry is computed without error; from 98 percent on
    the estimate is the int 1, and below 98 it is a float whose exact value
    is [(100 - pct) / 2], half days included. *)
Theorem readiness_entry_estimated_days (pct : Z) :
  -1000 ≤ pct ≤ 1000 →
  ∃ entry,
    readiness_entry pct = Ok entry
    ∧ (98 ≤ pct → Readiness.estimated_days_to_ready entry = Py.Int 1)
    ∧ (pct < 98 →
       ∃ f, Readiness.estimated_days_to_ready entry = Py.Float f
            ∧ (Py.Q_of_float f == (100 - pct) # 2)%Q).
Proof.
  intros Hrange.
  pose proof (proj1 (forallb_forall days_agree checked_percentages)
                days_agree_checked pct (elem_of_checked_percentages pct Hrange))
    as Hagree.
  unfold days_agree in Hagree.
  destruct (readiness_entry pct) as [entry|]; [|discriminate].
  exists entry. split; [done|].
  destruct (Readiness.estimated_days_to_ready entry) as [z|f].
  - apply andb_true_iff in Hagree as [Hz Hpct].
    apply Z.eqb_eq in Hz as ->. apply Z.leb_le in Hpct.
    split; [done | lia].
  - apply andb_true_iff in Hagree as [Hpct Hq].
    apply Z.ltb_lt in Hpct. apply Qeq_bool_iff in Hq.
    split; [lia|]. intros _. by exists f.
Qed.

Lemma readiness_entry_estimated_days_witness :
  ∃ entry,
    readiness_entry 33 = Ok entry
    ∧ ∃ f, Readiness.estimated_days_to_ready entry = Py.Float f
           ∧ (Py.Q_of_float f == 67 # 2)%Q.
Proof.
  destruct (readiness_entry_estimated_days 33) as (entry & Hrun & _ & Hdays);
    [lia|].
  exists entry. split; [exact Hrun|]. apply Hdays. lia.
Defined.

(** ** The arithmetic of the analytics *)

(** A division of two ints by a divisor other than 0 returns or overflows. *)
Lemma int_truediv_nonzero a b :
  b ≠ 0 →
  (∃ f, PyArith.int_truediv a b = Returns f)
  ∨ PyArith.int_truediv a b = Raises OverflowError.
Proof.
  intros Hb. unfold PyArith.int_truediv.
  destruct b as [|b|b]; [done| |];
    (destruct a as [|a|a]; [by left; eexists| |]);
    match goal with
    | |- context [SFdiv ?p ?e ?x ?y] => destruct (SFdiv p e x y)
    end; first [by right | by left; eexists].
Qed.

(** [max(1, x)] is never a zero divisor, and is greater than 0. *)
Lemma int_truediv_num_max_1 a third :
  (∃ f, PyArith.int_truediv_num a (Py.max_1 third) = Returns f)
  ∨ PyArith.int_truediv_num a (Py.max_1 third) = Raises OverflowError.
Proof.
  unfold Py.max_1. destruct (SFltb Py.f1_0 third) eqn:Hlt.
  - unfold PyArith.int_truediv_num, Py.float_of_int.
    destruct (binary_normalize Py.prec Py.emax a 0 false);
      simpl; try (by right);
      destruct third; try discriminate; simpl; left; by eexists.
  - unfold PyArith.int_truediv_num. by apply int_truediv_nonzero.
Qed.

Lemma num_gt_0_max_1 third : PyArith.num_gt_0 (Py.max_1 third) = true.
Proof.
  unfold Py.max_1. destruct (SFltb Py.f1_0 third) eqn:Hlt; [|reflexivity].
  destruct third as [s|s| |s m e]; try discriminate.
  - by destruct s.
  - by destruct s.
Qed.

(** [max(d.values())] returns the greatest value of a non-empty dict. *)
Lemma max_values_fold (d : gmap string Z) :
  match map_fold (fun _ v acc =>
                    Some (match acc with
                          | Some m => Z.max m v
                          | None => v
                          end)) None d with
  | Some m => (∃ k, d !! k = Some m) ∧ ∀ k v, d !! k = Some v → v ≤ m
  | None => d = ∅
  end.
Proof.
  apply (map_fold_weak_ind
           (fun (acc : option Z) (d : gmap string Z) =>
              match acc with
              | Some m =>
                  (∃ k, d !! k = Some m) ∧ ∀ k v, d !! k = Some v → v ≤ m
              | None => d = ∅
              end)).
  - done.
  - intros c p d' acc Hfresh IH. destruct acc as [m|].
    + destruct IH as [[k Hk] Hmax]. split.
      * destruct (Z.max_spec m p) as [[_ ->]|[_ ->]].
        -- exists c. apply lookup_insert_eq.
        -- exists k. rewrite lookup_insert_ne; [done|].
           intros ->. by rewrite Hfresh in Hk.
      * intros k' v [[_ <-]|[_ Hv]]%lookup_insert_Some; [lia|].
        specialize (Hmax _ _ Hv). lia.
    + subst d'. split.
      * exists c. apply lookup_insert_eq.
      * intros k' v [[_ <-]|[_ Hv]]%lookup_insert_Some; [lia|].
        by rewrite lookup_empty in Hv.
Qed.

Lemma max_values_returns d m :
  PyArith.max_values d = Returns m →
  (∃ k, d !! k = Some m) ∧ ∀ k v, d !! k = Some v → v ≤ m.
Proof.
  unfold PyArith.max_values. pose proof (max_values_fold d) as Hfold.
  destruct (map_fold _ None d) as [m'|]; [|discriminate].
  by intros [= <-].
Qed.

Lemma max_values_raises d e :
  PyArith.max_values d = Raises e → e = ValueError ∧ d = ∅.
Proof.
  unfold PyArith.max_values. pose proof (max_values_fold d) as Hfold.
  destruct (map_fold _ None d) as [m'|]; [discriminate|].
  by intros [= <-].
Qed.

Lemma max_values_no_zero_division d :
  PyArith.max_values d ≠ RaisesZeroDivisionError.
Proof. unfold PyArith.max_values. by destruct (map_fold _ None d). Qed.

Lemma max_values_empty : PyArith.max_values ∅ = Raises ValueError.
Proof. reflexivity. Qed.

(** ** [calculate_learning_velocity] *)

(** X14. Every divisor of [calculate_learning_velocity] is a [max(1, ...)],
    so the function never raises [ZeroDivisionError]: it returns, or raises
    [OverflowError] for an int too large for a float. When it returns,
    [consistency_score] is a float: [days_active > 0] always holds and the
    [else 0] of line 18 is never taken. *)
Theorem calculate_learning_velocity_exceptions (progress : ProgressData.t) :
  (∃ velocity f,
     calculate_learning_velocity progress = Returns velocity
     ∧ Velocity.consistency_score velocity = Py.Float f)
  ∨ calculate_learning_velocity progress = Raises OverflowError.
Proof.
  unfold calculate_learning_velocity.
  destruct (int_truediv_nonzero
              (PyArith.len (ProgressData.completedTasks progress)) 3)
    as [[third ->]| ->]; [done| |by right].
  simpl.
  destruct (int_truediv_num_max_1 (ProgressData.totalXP progress) third)
    as [[xp_per_day ->]| ->]; [|by right].
  simpl.
  destruct (int_truediv_num_max_1
              (PyArith.len (ProgressData.completedTasks progress)) third)
    as [[tasks_per_day ->]| ->]; [|by right].
  simpl.
  destruct (int_truediv_nonzero (ProgressData.totalXP progress)
              (Z.max 1 (PyArith.len (ProgressData.struggledTasks progress)
                        + 1)))
    as [[efficiency_score ->]| ->]; [lia| |by right].
  simpl. rewrite num_gt_0_max_1.
  destruct (int_truediv_num_max_1 (ProgressData.streak progress) third)
    as [[consistency ->]| ->]; [|by right].
  simpl. left. by eexists _, _.
Qed.

(** ** [generate_personalized_recommendations] *)

(** The cases of a run that returns: the struggle rate, the greatest
    certification percentage, and the rule conditions decided. *)
Ltac recommendations_cases Hrun rate Hrate max_cert Hmax :=
  unfold generate_personalized_recommendations, append_if in Hrun;
  destruct (PyArith.int_truediv _ _) as [rate| |] eqn:Hrate in Hrun;
    simpl in Hrun; try discriminate;
  destruct (PyArith.max_values _) as [max_cert| |] eqn:Hmax in Hrun;
    simpl in Hrun; try discriminate;
  revert Hrun;
  destruct (SFltb PyArith.f0_3 rate) eqn:Hhigh;
    [|destruct (SFltb rate PyArith.f0_1) eqn:Hlow];
  repeat case_bool_decide; simpl; intros [= <-].

(** X15. At most three recommendations are returned, each one of the five
    messages, in the order of their rules and without repetition; the two
    messages about the struggle rate never come together. *)
Theorem recommendations_at_most_three
    (progress : ProgressData.t) (recs : list string) :
  generate_personalized_recommendations progress = Returns recs →
  (length recs ≤ 3)%nat
  ∧ recs `sublist_of` all_recommendations
  ∧ Forall (fun message => message ∈ all_recommendations) recs
  ∧ NoDup recs
  ∧ ¬ (review_fundamentals ∈ recs ∧ more_challenging ∈ recs).
Proof.
  intros Hrun. recommendations_cases Hrun rate Hrate max_cert Hmax;
    (split; [simpl; lia|]);
    (split; [unfold all_recommendations;
             by repeat first [apply sublist_nil | apply sublist_skip
                             | apply sublist_cons]|]);
    (split; [apply (bool_decide_unpack _); vm_compute; exact I|]);
    (split; [apply (bool_decide_unpack _); vm_compute; exact I|]);
    apply (bool_decide_unpack _); vm_compute; exact I.
Qed.

Lemma recommendations_at_most_three_witness :
  ∃ recs,
    generate_personalized_recommendations progress_with_four_reasons
    = Returns recs
    ∧ (length recs ≤ 3)%nat
    ∧ PyArith.len (ProgressData.portfolioItems progress_with_four_reasons)
      < ProgressData.currentWeek progress_with_four_reasons.
Proof.
  assert (Hrun : ∃ recs,
             generate_personalized_recommendations progress_with_four_reasons
             = Returns recs)
    by (eexists; vm_compute; reflexivity).
  destruct Hrun as (recs & Hrun). exists recs. split; [exact Hrun|].
  split; [|reflexivity].
  apply (recommendations_at_most_three _ _ Hrun).
Defined.

(** X16. Every recommendation returned is backed by its rule: the message
    about fundamentals by a struggle rate above 0.3, the one about harder
    projects by a rate below 0.1, the one about study time by
    [totalXP < currentWeek * 1000], the one about the exam by a certification
    above 80 percent, the one about the portfolio by fewer portfolio items
    than weeks. *)
Theorem recommendations_justified
    (progress : ProgressData.t) (recs : list string) :
  generate_personalized_recommendations progress = Returns recs →
  (review_fundamentals ∈ recs →
   ∃ rate,
     PyArith.int_truediv
       (PyArith.len (ProgressData.struggledTasks progress))
       (Z.max 1 (PyArith.len (ProgressData.completedTasks progress)))
     = Returns rate
     ∧ SFltb PyArith.f0_3 rate = true)
  ∧ (more_challenging ∈ recs →
     ∃ rate,
       PyArith.int_truediv
         (PyArith.len (ProgressData.struggledTasks progress))
         (Z.max 1 (PyArith.len (ProgressData.completedTasks progress)))
       = Returns rate
       ∧ SFltb rate PyArith.f0_1 = true)
  ∧ (increase_study_time ∈ recs →
     ProgressData.totalXP progress < ProgressData.currentWeek progress * 1000)
  ∧ (schedule_exam ∈ recs →
     ∃ cert pct,
       ProgressData.certificationProgress progress !! cert = Some pct
       ∧ 80 < pct)
  ∧ (more_portfolio ∈ recs →
     PyArith.len (ProgressData.portfolioItems progress)
     < ProgressData.currentWeek progress).
Proof.
  intros Hrun. recommendations_cases Hrun rate Hrate max_cert Hmax;
    destruct (max_values_returns _ _ Hmax) as [[cert Hcert] _];
    repeat split; intros Hin;
    first [ exfalso; apply (bool_decide_pack _) in Hin; vm_compute in Hin;
            exact Hin
          | by exists rate
          | lia
          | exists cert, max_cert; split; [done | lia] ].
Qed.

Lemma recommendations_justified_witness :
  ∃ cert pct,
    ProgressData.certificationProgress progress_with_four_reasons !! cert
    = Some pct
    ∧ 80 < pct.
Proof.
  assert (Hrun : ∃ recs,
             generate_personalized_recommendations progress_with_four_reasons
             = Returns recs ∧ schedule_exam ∈ recs).
  { eexists. split; [vm_compute; reflexivity|].
    apply (bool_decide_unpack _). vm_compute. exact I. }
  destruct Hrun as (recs & Hrun & Hin).
  by apply (recommendations_justified _ _ Hrun).
Defined.

(** X17. [generate_personalized_recommendations] needs a certification: on
    a snapshot whose [certificationProgress] is empty, [max()] at line 72
    raises [ValueError] (unless the struggle rate overflowed before), and it
    is the only way to a [ValueError]; [ZeroDivisionError] is never raised.
    For such a stored snapshot [GET /analytics] answers 500. *)
Theorem recommendations_need_a_certification (progress : ProgressData.t) :
  (ProgressData.certificationProgress progress = ∅ →
   generate_personalized_recommendations progress = Raises ValueError
   ∨ generate_personalized_recommendations progress = Raises OverflowError)
  ∧ (generate_personalized_recommendations progress = Raises ValueError →
     ProgressData.certificationProgress progress = ∅)
  ∧ generate_personalized_recommendations progress ≠ RaisesZeroDivisionError
  ∧ (ProgressData.certificationProgress progress = ∅ →
     ∀ db user_id,
       stored db user_id = Some progress →
       analytics_api.get_analytics false db user_id
       = HTTPException 500 "Failed to retrieve analytics").
Proof.
  assert (Hempty :
            ProgressData.certificationProgress progress = ∅ →
            generate_personalized_recommendations progress = Raises ValueError
            ∨ generate_personalized_recommendations progress
              = Raises OverflowError).
  { intros Hcert. unfold generate_personalized_recommendations.
    destruct (int_truediv_nonzero
                (PyArith.len (ProgressData.struggledTasks progress))
                (Z.max 1 (PyArith.len (ProgressData.completedTasks progress))))
      as [[rate ->]| ->]; [lia| |by right].
    simpl. rewrite Hcert, max_values_empty. by left. }
  split; [exact Hempty|]. split; [|split].
  - unfold generate_personalized_recommendations.
    destruct (int_truediv_nonzero
                (PyArith.len (ProgressData.struggledTasks progress))
                (Z.max 1 (PyArith.len (ProgressData.completedTasks progress))))
      as [[rate ->]| ->]; [lia| |discriminate].
    simpl.
    destruct (PyArith.max_values (ProgressData.certificationProgress progress))
      as [max_cert|e|] eqn:Hmax; simpl; [discriminate| |discriminate].
    intros _. by destruct (max_values_raises _ _ Hmax).
  - unfold generate_personalized_recommendations.
    destruct (int_truediv_nonzero
                (PyArith.len (ProgressData.struggledTasks progress))
                (Z.max 1 (PyArith.len (ProgressData.completedTasks progress))))
      as [[rate ->]| ->]; [lia| |discriminate].
    simpl.
    pose proof (max_values_no_zero_division
                  (ProgressData.certificationProgress progress)) as Hno.
    by destruct (PyArith.max_values
                   (ProgressData.certificationProgress progress)).
  - intros Hcert db user_id Hstored.
    unfold analytics_api.get_analytics. unfold stored in Hstored.
    rewrite Hstored.
    destruct (calculate_learning_velocity progress); simpl; [|done|done].
    destruct (predict_certification_readiness progress); simpl; [|done].
    by destruct (Hempty Hcert) as [-> | ->].
Qed.

(** ** The handlers of api/analytics.py *)

(** X18. [GET /analytics] never answers 404. The [HTTPException] with status
    404 is raised at line 17 inside the [try], and [except Exception] at line
    37 turns it into a 500: when no snapshot is loaded the answer is 500
    "Failed to retrieve analytics". A 200 is answered only for a loaded
    snapshot, with its [totalXP] and its recommendations. *)
Theorem get_analytics_never_404
    (load_fault : bool) (db : DatabaseManager) (user_id : string) :
  (∀ detail, analytics_api.get_analytics load_fault db user_id
             ≠ HTTPException 404 detail)
  ∧ (db_manager.load_progress load_fault db user_id = None →
     analytics_api.get_analytics load_fault db user_id
     = HTTPException 500 "Failed to retrieve analytics")
  ∧ (stored db user_id = None →
     analytics_api.get_analytics load_fault db user_id
     = HTTPException 500 "Failed to retrieve analytics")
  ∧ (∀ body,
       analytics_api.get_analytics load_fault db user_id = HTTP200 body →
       ∃ progress,
         db_manager.load_progress load_fault db user_id = Some progress
         ∧ Summary.total_xp (Analytics.summary body)
           = ProgressData.totalXP progress
         ∧ generate_personalized_recommendations progress
           = Returns (Analytics.recommendations body)
         ∧ predict_certification_readiness progress
           = Ok (Analytics.certification_readiness body)).
Proof.
  assert (Hnone :
            db_manager.load_progress load_fault db user_id = None →
            analytics_api.get_analytics load_fault db user_id
            = HTTPException 500 "Failed to retrieve analytics").
  { intros Hload. unfold analytics_api.get_analytics. by rewrite Hload. }
  split; [|split; [exact Hnone|split]].
  - intros detail. unfold analytics_api.get_analytics, try_except_outcome.
    by destruct (match db_manager.load_progress load_fault db user_id with
                 | Some _ => _
                 | None => _
                 end).
  - intros Hstored. apply Hnone. destruct load_fault; [reflexivity|].
    exact Hstored.
  - intros body. unfold analytics_api.get_analytics.
    destruct (db_manager.load_progress load_fault db user_id)
      as [progress|]; [|discriminate].
    destruct (calculate_learning_velocity progress) as [velocity| |];
      simpl; [|done|done].
    destruct (predict_certification_readiness progress) as [readiness|]
      eqn:Hreadiness; simpl; [|done].
    destruct (generate_personalized_recommendations progress) as [recs| |]
      eqn:Hrecs; simpl; [|done|done].
    destruct (PyArith.int_truediv
                (PyArith.len (ProgressData.completedTasks progress)) _)
      as [completion_rate| |]; simpl; [|done|done].
    destruct (PyArith.int_truediv
                (PyArith.len (ProgressData.struggledTasks progress)) _)
      as [struggle_rate| |]; simpl; [|done|done].
    intros [= <-]. exists progress. simpl. done.
Qed.

(** X19. [GET /backup] never answers 404 either, for the same reason: with no
    snapshot loaded it answers 500 "Failed to create backup". For a stored
    snapshot it returns that snapshot unchanged, with the identifier, the
    clock reading and the version "1.0.0". *)
Theorem create_backup_never_404
    (load_fault : bool) (db : DatabaseManager) (user_id now_iso : string) :
  (∀ detail, analytics_api.create_backup load_fault db user_id now_iso
             ≠ HTTPException 404 detail)
  ∧ (db_manager.load_progress load_fault db user_id = None →
     analytics_api.create_backup load_fault db user_id now_iso
     = HTTPException 500 "Failed to create backup")
  ∧ (∀ progress,
       stored db user_id = Some progress →
       analytics_api.create_backup false db user_id now_iso
       = HTTP200 {| Backup.backup_date := now_iso;
                    Backup.user_id := user_id;
                    Backup.progress := progress;
                    Backup.version := "1.0.0" |})
  ∧ (∀ progress,
       stored db user_id = Some progress →
       analytics_api.create_backup true db user_id now_iso
       = HTTPException 500 "Failed to create backup").
Proof.
  unfold analytics_api.create_backup. split; [|split; [|split]].
  - intros detail.
    by destruct (db_manager.load_progress load_fault db user_id).
  - by intros ->.
  - intros progress Hstored. unfold stored in Hstored. by rewrite Hstored.
  - intros progress _. by rewrite load_progress_fault.
Qed.

(** ** The earned XP in integer arithmetic *)

(** X20. Line 61 in integer arithmetic, for points from -5000 to 5000: the
    float product truncated by [int()] is [3 * points] divided by 2 for a
    capstone, [6 * points] divided by 5 for a project, both truncated toward
    zero, and [points] itself for every other category. So a multiplier never
    takes XP away: the earned XP is at least the points when they are not
    negative. *)
Theorem earned_xp_integer_arithmetic (completion : TaskCompletion.t) :
  -5000 ≤ TaskCompletion.points completion ≤ 5000 →
  ∃ xp,
    earned_xp completion = Ok xp
    ∧ (TaskCompletion.category completion = "capstone" →
       xp = Z.quot (3 * TaskCompletion.points completion) 2)
    ∧ (TaskCompletion.category completion = "project" →
       xp = Z.quot (6 * TaskCompletion.points completion) 5)
    ∧ (TaskCompletion.category completion ≠ "capstone" →
       TaskCompletion.category completion ≠ "project" →
       xp = TaskCompletion.points completion)
    ∧ (0 ≤ TaskCompletion.points completion →
       TaskCompletion.points completion ≤ xp
       ∧ 2 * xp ≤ 3 * TaskCompletion.points completion).
Proof.
  intros Hrange. eexists. split; [by apply earned_xp_truncates_small|].
  unfold trunc_xp, spec_multiplier.
  set (points := TaskCompletion.points completion) in *.
  repeat case_bool_decide; simpl.
  - change (Z.pos (1 * 2)) with 2.
    replace (points * 3) with (3 * points) by lia.
    split; [done|]. split; [congruence|]. split; [done|].
    intros Hpos. rewrite Z.quot_div_nonneg by lia.
    pose proof (Z.div_mod (3 * points) 2 ltac:(lia)).
    pose proof (Z.mod_pos_bound (3 * points) 2 ltac:(lia)). lia.
  - change (Z.pos (1 * 5)) with 5.
    replace (points * 6) with (6 * points) by lia.
    split; [done|]. split; [done|]. split; [done|].
    intros Hpos. rewrite Z.quot_div_nonneg by lia.
    pose proof (Z.div_mod (6 * points) 5 ltac:(lia)).
    pose proof (Z.mod_pos_bound (6 * points) 5 ltac:(lia)). lia.
  - change (Z.pos (1 * 1)) with 1. rewrite Z.mul_1_r, Z.quot_1_r.
    split; [done|]. split; [done|]. split; [done|]. lia.
Qed.

Lemma earned_xp_integer_arithmetic_witness :
  ∃ xp,
    earned_xp (example_completion "t1" (-35) "capstone") = Ok xp
    ∧ xp = Z.quot (3 * -35) 2.
Proof.
  destruct (earned_xp_integer_arithmetic
              (example_completion "t1" (-35) "capstone"))
    as (xp & Hxp & Hcapstone & _); [simpl; lia|].
  exists xp. split; [exact Hxp|]. by apply Hcapstone.
Defined.
